(** * RangeStrategy: a shallow embedding of [range_strategy.py]

    The engine keeps a rolling window of bars, lets TA-Lib derive four
    indicator series from it, decides entries, sizes positions and closes
    them on stop or target.  Every method of the class [RangeStrategy] is
    embedded under its own name.

    Conventions of the embedding:
    - a Python exception is an outcome [Raise e]; a method that mutates
      [self] before it can raise returns the mutated object too;
    - a Python float that is always a plain number (bar prices, configuration
      values, account equity, P&L) is a rational [Q]; a float that may be
      NaN or infinite (an indicator value and what is computed from it) is a
      [pyfloat].  The arithmetic of position sizing and of the order prices
      is double arithmetic: a number that enters it is taken to the double
      nearest to it, as a decimal literal is ([float]), and every exact
      result is rounded to the nearest double, ties to even, overflowing to
      infinity ([round]).  Comparisons, [math.floor] and the P&L
      bookkeeping are exact;
    - [x[-1]] depends on what [x] is: on a list of floats it is the last
      entry; on the pandas Series that [calculate_indicators] stores it is a
      look-up of the label -1.  Every row of the window carries the label 0
      (each bar is concatenated as a one-row frame, and [ignore_index] is not
      set), so that look-up raises KeyError;
    - TA-Lib, the broker and the wall clock live outside the file: the
      indicator functions are a record [TaLib] and may raise, the broker is
      a record [IB], and every reading of [datetime.now()] is an argument;
    - the driver [run] only sequences [update_market_data],
      [manage_position] and [execute_trade] in an endless loop; sequences of
      such calls are [calls]. *)

From Stdlib Require Import ZArith QArith Qround List String Bool Lia.
Import ListNotations.

Set Implicit Arguments.

(** ** Python values and exceptions *)

Module Py.

Inductive exn : Type :=
| TypeError          (* None subscripted, or None in arithmetic/comparison *)
| IndexError         (* [-1] or [0] of an empty sequence *)
| KeyError           (* a label that is not in the index of a Series *)
| ZeroDivisionError  (* float division by zero *)
| ValueError         (* math.floor of NaN *)
| OverflowError      (* math.floor of an infinity *)
| ConnectionError    (* raised by the broker session *)
| Exception.         (* any other exception, such as TA-Lib's *)

Inductive outcome (A : Type) : Type :=
| Return (a : A)
| Raise (e : exn).
Arguments Return {A} a.
Arguments Raise {A} e.

Definition bind {A B} (o : outcome A) (k : A -> outcome B) : outcome B :=
  match o with
  | Return a => k a
  | Raise e => Raise e
  end.

(** A float: a number, an infinity or NaN. *)
Inductive pyfloat : Type :=
| Fin (q : Q)
| PInf
| NInf
| NaN.

(** The double nearest to a rational: 53 significant bits, the exponent of
    the last bit not below -1074, ties to the even significand, and
    infinity from 2^1024 on. *)
Definition below_pow2 (n d e : Z) : bool :=
  if (0 <=? e)%Z then (n <? d * 2 ^ e)%Z else (n * 2 ^ (- e) <? d)%Z.

Definition nearest_even (num den : Z) : Z :=
  let m := (num / den)%Z in
  let r := (num mod den)%Z in
  match (2 * r ?= den)%Z with
  | Lt => m
  | Gt => (m + 1)%Z
  | Eq => if Z.even m then m else (m + 1)%Z
  end.

Definition round (q : Q) : pyfloat :=
  let n := Z.abs (Qnum q) in
  let d := Zpos (Qden q) in
  if (n =? 0)%Z then Fin 0
  else
    let e0 := (Z.log2 n - Z.log2 d)%Z in
    let e := if below_pow2 n d e0 then (e0 - 1)%Z else e0 in
    let p := Z.max (e - 52) (- 1074) in
    let m :=
      if (0 <=? p)%Z then nearest_even n (d * 2 ^ p)
      else nearest_even (n * 2 ^ (- p)) d in
    let negative := (Qnum q <? 0)%Z in
    if (0 <=? p)%Z then
      if (2 ^ 1024 <=? m * 2 ^ p)%Z
      then (if negative then NInf else PInf)
      else Fin (inject_Z ((if negative then - m else m) * 2 ^ p))
    else
      Fin (Qred (Qmake (if negative then - m else m)
                       (Z.to_pos (2 ^ (- p))))).

(** The float a number stands for, and the same for a value that may be
    NaN or infinite already. *)
Definition float (q : Q) : pyfloat := round q.

Definition double (a : pyfloat) : pyfloat :=
  match a with
  | Fin x => float x
  | _ => a
  end.

Definition fneg (a : pyfloat) : pyfloat :=
  match a with
  | Fin x => Fin (- x)
  | PInf => NInf
  | NInf => PInf
  | NaN => NaN
  end.

(** An infinity times, or divided by, a number. *)
Definition scaled (inf : pyfloat) (y : Q) : pyfloat :=
  match y ?= 0 with
  | Gt => inf
  | Lt => fneg inf
  | Eq => NaN
  end.

(** The operations on doubles. *)
Definition fmul (a b : pyfloat) : pyfloat :=
  match a, b with
  | NaN, _ | _, NaN => NaN
  | Fin x, Fin y => round (x * y)
  | Fin x, inf => scaled inf x
  | inf, Fin y => scaled inf y
  | PInf, PInf | NInf, NInf => PInf
  | PInf, NInf | NInf, PInf => NInf
  end.

Definition fadd (a b : pyfloat) : pyfloat :=
  match a, b with
  | NaN, _ | _, NaN => NaN
  | Fin x, Fin y => round (x + y)
  | PInf, NInf | NInf, PInf => NaN
  | Fin _, inf => inf
  | inf, _ => inf
  end.

Definition fsub (a b : pyfloat) : pyfloat := fadd a (fneg b).

(** [a / b] on Python floats: a zero divisor raises, whatever the
    dividend. *)
Definition fdiv (a b : pyfloat) : outcome pyfloat :=
  match b with
  | Fin y =>
      if Qeq_bool y 0 then Raise ZeroDivisionError
      else match a with
           | Fin x => Return (round (x / y))
           | NaN => Return NaN
           | inf => Return (scaled inf y)
           end
  | NaN => Return NaN
  | _ =>
      match a with
      | Fin _ => Return (Fin 0)
      | _ => Return NaN
      end
  end.

(** [math.floor]: an int; NaN and the infinities have none. *)
Definition math_floor (a : pyfloat) : outcome Z :=
  match a with
  | Fin x => Return (Qfloor x)
  | NaN => Raise ValueError
  | _ => Raise OverflowError
  end.

(** Comparisons: any comparison with NaN is False. *)
Definition fle (a b : pyfloat) : bool :=
  match a, b with
  | NaN, _ | _, NaN => false
  | Fin x, Fin y => Qle_bool x y
  | NInf, _ => true
  | _, PInf => true
  | _, _ => false
  end.

Definition fgt (a b : pyfloat) : bool :=
  match a, b with
  | NaN, _ | _, NaN => false
  | Fin x, Fin y => negb (Qle_bool x y)
  | NInf, _ => false
  | _, PInf => false
  | _, _ => true
  end.

(** The values of a column, oldest first. *)
Definition series : Type := list pyfloat.

(** What an indicator attribute can hold besides None: a list of floats,
    as a caller may assign, or a pandas Series on the index of the window,
    as [calculate_indicators] assigns. *)
Inductive array : Type :=
| PyList (l : series)
| PdSeries (l : series).

Fixpoint last_error {A} (l : list A) : option A :=
  match l with
  | [] => None
  | [a] => Some a
  | _ :: l' => last_error l'
  end.

(** [x[-1]]: None cannot be subscripted; a list gives its last entry; a
    Series on the window's index, whose labels are all 0, has no label
    -1. *)
Definition item_last (x : option array) : outcome pyfloat :=
  match x with
  | None => Raise TypeError
  | Some (PyList l) =>
      match last_error l with
      | Some v => Return v
      | None => Raise IndexError
      end
  | Some (PdSeries _) => Raise KeyError
  end.

(** [DataFrame.tail(n)] for [n >= 0]: the last [n] rows. *)
Definition tail {A} (n : nat) (l : list A) : list A :=
  skipn (List.length l - n) l.

(** Truthiness of an attribute that is None or a non-empty dict. *)
Definition truthy {A} (x : option A) : bool :=
  match x with
  | Some _ => true
  | None => false
  end.

End Py.
Import Py.

Declare Scope py_scope.
Delimit Scope py_scope with py.
Notation "x <- e ;; k" := (Py.bind e (fun x => k))
  (at level 61, e at next level, right associativity) : py_scope.

(** ** Time *)

(** A [datetime] is a count of microseconds; [.time()] is its remainder
    modulo one day, and a [time(h, m)] literal is that many microseconds
    after midnight. *)
Definition datetime : Type := Z.
Definition timeofday : Type := Z.

Definition usec_per_day : Z := 86400000000.

Definition time (h m : Z) : timeofday := ((h * 60 + m) * 60 * 1000000)%Z.

Definition time_of (t : datetime) : timeofday := (t mod usec_per_day)%Z.

(** [(a - b).total_seconds()] *)
Definition total_seconds (a b : datetime) : Q := (a - b)%Z # 1000000.

(** ** Data model *)

(** A bar as delivered by the feed ([bar.time], [bar.open], ...). *)
Record Bar : Type := mkBar {
  bar_time : datetime;
  bar_open : Q;
  bar_high : Q;
  bar_low : Q;
  bar_close : Q;
  bar_volume : Q
}.

(** A row of [historical_data]. *)
Record Row : Type := mkRow {
  timestamp : datetime;
  open : Q;
  high : Q;
  low : Q;
  close : Q;
  volume : Q
}.

(** [self.config] after [_validate_config]: every key is present.  Periods
    are counts. *)
Record Config : Type := mkConfig {
  adx_period : nat;
  adx_threshold : Q;
  bollinger_ma_period : nat;
  bollinger_std_dev : Q;
  rsi_period : nat;
  rsi_oversold : Q;
  rsi_overbought : Q;
  atr_period : nat;
  stop_loss_atr_multiplier : Q;
  profit_target_pct : Q;
  risk_per_trade_pct : Q;
  max_trades_per_day : Z;
  daily_loss_limit_pct : Q;
  trade_start_time : timeofday;
  trade_end_time : timeofday
}.

(** The [config] argument of the constructor: a dict that may lack keys. *)
Record UserConfig : Type := mkUserConfig {
  u_adx_period : option nat;
  u_adx_threshold : option Q;
  u_bollinger_ma_period : option nat;
  u_bollinger_std_dev : option Q;
  u_rsi_period : option nat;
  u_rsi_oversold : option Q;
  u_rsi_overbought : option Q;
  u_atr_period : option nat;
  u_stop_loss_atr_multiplier : option Q;
  u_profit_target_pct : option Q;
  u_risk_per_trade_pct : option Q;
  u_max_trades_per_day : option Z;
  u_daily_loss_limit_pct : option Q;
  u_trade_start_time : option timeofday;
  u_trade_end_time : option timeofday
}.

Definition defaults : Config := {|
  adx_period := 14;
  adx_threshold := 20;
  bollinger_ma_period := 20;
  bollinger_std_dev := 2;
  rsi_period := 14;
  rsi_oversold := 30;
  rsi_overbought := 70;
  atr_period := 14;
  stop_loss_atr_multiplier := 3 # 2;
  profit_target_pct := 3 # 200;
  risk_per_trade_pct := 1 # 100;
  max_trades_per_day := 5;
  daily_loss_limit_pct := 1 # 50;
  trade_start_time := time 9 35;
  trade_end_time := time 15 55
|}.

Definition or_default {A} (d : A) (o : option A) : A :=
  match o with
  | Some a => a
  | None => d
  end.

(** [{**defaults, **(config or {})}] *)
Definition _validate_config (config : option UserConfig) : Config :=
  match config with
  | None => defaults
  | Some u => {|
      adx_period := or_default (adx_period defaults) (u_adx_period u);
      adx_threshold := or_default (adx_threshold defaults) (u_adx_threshold u);
      bollinger_ma_period :=
        or_default (bollinger_ma_period defaults) (u_bollinger_ma_period u);
      bollinger_std_dev :=
        or_default (bollinger_std_dev defaults) (u_bollinger_std_dev u);
      rsi_period := or_default (rsi_period defaults) (u_rsi_period u);
      rsi_oversold := or_default (rsi_oversold defaults) (u_rsi_oversold u);
      rsi_overbought :=
        or_default (rsi_overbought defaults) (u_rsi_overbought u);
      atr_period := or_default (atr_period defaults) (u_atr_period u);
      stop_loss_atr_multiplier :=
        or_default (stop_loss_atr_multiplier defaults)
                   (u_stop_loss_atr_multiplier u);
      profit_target_pct :=
        or_default (profit_target_pct defaults) (u_profit_target_pct u);
      risk_per_trade_pct :=
        or_default (risk_per_trade_pct defaults) (u_risk_per_trade_pct u);
      max_trades_per_day :=
        or_default (max_trades_per_day defaults) (u_max_trades_per_day u);
      daily_loss_limit_pct :=
        or_default (daily_loss_limit_pct defaults) (u_daily_loss_limit_pct u);
      trade_start_time :=
        or_default (trade_start_time defaults) (u_trade_start_time u);
      trade_end_time :=
        or_default (trade_end_time defaults) (u_trade_end_time u)
    |}
  end.

(** [self.position] when it is a dict. *)
Record Position : Type := mkPosition {
  entry_price : Q;
  quantity : Z;
  stop_price : pyfloat;
  target_price : pyfloat;
  entry_time : datetime
}.

(** [trade_details], kept in [self.last_trade] and written to the log. *)
Record TradeDetails : Type := mkTradeDetails {
  td_symbol : string;
  td_entry_price : Q;
  td_exit_price : Q;
  td_quantity : Z;
  td_pnl : Q;
  td_duration : Q;
  td_reason : string
}.

(** [self.bollinger] when it is a dict. *)
Record Bands : Type := mkBands {
  upper : array;
  middle : array;
  lower : array
}.

(** ** Collaborators *)

Inductive Action : Type := BUY | SELL.

Inductive Order : Type :=
| MarketOrder (action : Action) (totalQuantity : Z)
| LimitOrder (action : Action) (totalQuantity : Z) (lmtPrice : pyfloat)
| StopOrder (action : Action) (totalQuantity : Z) (stopPrice : pyfloat).

(** What the broker does with one [placeOrder] call: it hands back a trade
    handle for an order it took or for one it rejected, or the call itself
    raises because the session is down. *)
Inductive Reply : Type :=
| Accepted
| Rejected
| Unreachable.

(** The broker session [self.ib]: the rows of
    [accountSummary('TotalCashValue')], already through [float()], and the
    reply to an order given the orders received so far. *)
Record IB : Type := mkIB {
  accountSummary : list Q;
  placeOrder : list Order -> Order -> Reply
}.

(** TA-Lib, as far as the engine calls it: each function returns the
    values of its output, or raises (it refuses, for one, a period below
    2). *)
Record TaLib : Type := mkTaLib {
  ADX : series -> series -> series -> nat -> outcome series;
  BBANDS : series -> nat -> Q -> Q -> nat
           -> outcome (series * series * series);
  RSI : series -> nat -> outcome series;
  ATR : series -> series -> series -> nat -> outcome series
}.

(** ** The engine object *)

Record RangeStrategy : Type := mkRangeStrategy {
  ib : IB;
  symbol : string;
  config : Config;
  position : option Position;
  historical_data : list Row;
  current_price : option Q;
  latest_empty : bool;
  adx : option array;
  bollinger : option Bands;
  rsi : option array;
  atr : option array;
  trades_today : Z;
  daily_pnl : Q;
  last_trade : option TradeDetails
}.

(** [__init__] *)
Definition __init__ (ib0 : IB) (symbol0 : string) (config0 : option UserConfig)
  : RangeStrategy := {|
  ib := ib0;
  symbol := symbol0;
  config := _validate_config config0;
  position := None;
  historical_data := [];
  current_price := None;
  latest_empty := false;
  adx := None;
  bollinger := None;
  rsi := None;
  atr := None;
  trades_today := 0;
  daily_pnl := 0;
  last_trade := None
|}.

(** [max(adx_period, bollinger_ma_period, rsi_period)], the expression
    shared by [calculate_indicators] and [update_market_data]. *)
Definition max_period (c : Config) : nat :=
  Nat.max (adx_period c) (Nat.max (bollinger_ma_period c) (rsi_period c)).

Definition column (f : Row -> Q) (rows : list Row) : series :=
  map (fun r => Fin (f r)) rows.

Definition set_adx (x : option array) (s : RangeStrategy) : RangeStrategy :=
  {| ib := ib s; symbol := symbol s; config := config s;
     position := position s;
     historical_data := historical_data s;
     current_price := current_price s;
     latest_empty := latest_empty s;
     adx := x; bollinger := bollinger s; rsi := rsi s; atr := atr s;
     trades_today := trades_today s;
     daily_pnl := daily_pnl s;
     last_trade := last_trade s |}.

Definition set_bollinger (x : option Bands) (s : RangeStrategy)
  : RangeStrategy :=
  {| ib := ib s; symbol := symbol s; config := config s;
     position := position s;
     historical_data := historical_data s;
     current_price := current_price s;
     latest_empty := latest_empty s;
     adx := adx s; bollinger := x; rsi := rsi s; atr := atr s;
     trades_today := trades_today s;
     daily_pnl := daily_pnl s;
     last_trade := last_trade s |}.

Definition set_rsi (x : option array) (s : RangeStrategy) : RangeStrategy :=
  {| ib := ib s; symbol := symbol s; config := config s;
     position := position s;
     historical_data := historical_data s;
     current_price := current_price s;
     latest_empty := latest_empty s;
     adx := adx s; bollinger := bollinger s; rsi := x; atr := atr s;
     trades_today := trades_today s;
     daily_pnl := daily_pnl s;
     last_trade := last_trade s |}.

Definition set_atr (x : option array) (s : RangeStrategy) : RangeStrategy :=
  {| ib := ib s; symbol := symbol s; config := config s;
     position := position s;
     historical_data := historical_data s;
     current_price := current_price s;
     latest_empty := latest_empty s;
     adx := adx s; bollinger := bollinger s; rsi := rsi s; atr := x;
     trades_today := trades_today s;
     daily_pnl := daily_pnl s;
     last_trade := last_trade s |}.

(** [calculate_indicators]: the outcome and the object as it is left.  The
    four results are assigned one after the other, so a call that raises
    leaves the earlier ones assigned. *)
Definition calculate_indicators (lib : TaLib) (s : RangeStrategy)
  : outcome unit * RangeStrategy :=
  if (List.length (historical_data s) <? max_period (config s))%nat
  then (Return tt, s)
  else
    let c := config s in
    let h := column high (historical_data s) in
    let l := column low (historical_data s) in
    let cl := column close (historical_data s) in
    match ADX lib h l cl (adx_period c) with
    | Raise e => (Raise e, s)
    | Return adx' =>
        let s1 := set_adx (Some (PdSeries adx')) s in
        match BBANDS lib cl (bollinger_ma_period c)
                     (bollinger_std_dev c) (bollinger_std_dev c) 0 with
        | Raise e => (Raise e, s1)
        | Return (up, mid, lo) =>
            let s2 :=
              set_bollinger
                (Some {| upper := PdSeries up; middle := PdSeries mid;
                         lower := PdSeries lo |}) s1 in
            match RSI lib cl (rsi_period c) with
            | Raise e => (Raise e, s2)
            | Return rsi' =>
                let s3 := set_rsi (Some (PdSeries rsi')) s2 in
                match ATR lib h l cl (atr_period c) with
                | Raise e => (Raise e, s3)
                | Return atr' =>
                    (Return tt, set_atr (Some (PdSeries atr')) s3)
                end
            end
        end
    end.

Definition new_row (bar : Bar) : Row := {|
  timestamp := bar_time bar;
  open := bar_open bar;
  high := bar_high bar;
  low := bar_low bar;
  close := bar_close bar;
  volume := bar_volume bar
|}.

(** [update_market_data]: the outcome and the object as it is left. *)
Definition update_market_data (lib : TaLib) (bar : Bar) (s : RangeStrategy)
  : outcome unit * RangeStrategy :=
  let window :=
    Py.tail (max_period (config s) + 20)
            (historical_data s ++ [new_row bar]) in
  calculate_indicators lib
    {| ib := ib s; symbol := symbol s; config := config s;
       position := position s;
       historical_data := window;
       current_price := Some (bar_close bar);
       latest_empty := latest_empty s;
       adx := adx s; bollinger := bollinger s; rsi := rsi s; atr := atr s;
       trades_today := trades_today s;
       daily_pnl := daily_pnl s;
       last_trade := last_trade s |}.

(** [self.current_price] used as a number. *)
Definition number (x : option Q) : outcome Q :=
  match x with
  | Some q => Return q
  | None => Raise TypeError
  end.

(** [self.bollinger['lower'][-1]] *)
Definition lower_last (b : option Bands) : outcome pyfloat :=
  match b with
  | None => Raise TypeError
  | Some d => item_last (Some (lower d))
  end.

(** [evaluate_entry]; [now] is the reading of [datetime.now()]. *)
Definition evaluate_entry (s : RangeStrategy) (now : datetime)
  : outcome bool :=
  (if truthy (position s) then Return false
   else
     a <- item_last (adx s) ;;
     if fgt a (Fin (adx_threshold (config s))) then Return false
     else
       lo <- lower_last (bollinger s) ;;
       p <- number (current_price s) ;;
       if negb (fle (Fin p) lo) then Return false
       else
         r <- item_last (rsi s) ;;
         if fgt r (Fin (rsi_oversold (config s))) then Return false
         else
           let t := time_of now in
           if negb ((trade_start_time (config s) <=? t)%Z
                    && (t <=? trade_end_time (config s))%Z)
           then Return false
           else if (trades_today s >=? max_trades_per_day (config s))%Z
           then Return false
           else if Qle_bool (daily_pnl s) (- daily_loss_limit_pct (config s))
           then Return false
           else Return true)%py.

(** [calculate_position_size]; the argument [price] is not used. *)
Definition calculate_position_size (s : RangeStrategy) (price : option Q)
  : outcome Z :=
  (account_value <-
     match accountSummary (ib s) with
     | v :: _ => Return v
     | [] => Raise IndexError
     end ;;
   let risk_amount :=
     fmul (float account_value) (float (risk_per_trade_pct (config s))) in
   v <- item_last (atr s) ;;
   let stop_distance :=
     fmul (double v) (float (stop_loss_atr_multiplier (config s))) in
   d <- fdiv risk_amount stop_distance ;;
   math_floor d)%py.

(** ** Methods that talk to the broker or write the log *)

(** What a method call can change: the object, the orders the broker has
    received, and the trade log. *)
Record World : Type := mkWorld {
  strat : RangeStrategy;
  orders : list Order;
  log : list TradeDetails
}.

(** A method: an outcome and the world it leaves behind. *)
Definition M (A : Type) : Type := World -> outcome A * World.

Definition ret {A} (a : A) : M A := fun w => (Return a, w).

Definition raise {A} (e : exn) : M A := fun w => (Raise e, w).

Definition mbind {A B} (m : M A) (k : A -> M B) : M B :=
  fun w =>
    match m w with
    | (Return a, w') => k a w'
    | (Raise e, w') => (Raise e, w')
    end.

Definition lift {A} (o : outcome A) : M A := fun w => (o, w).

Definition self : M RangeStrategy := fun w => (Return (strat w), w).

Definition assign (f : RangeStrategy -> RangeStrategy) : M unit :=
  fun w =>
    (Return tt,
     {| strat := f (strat w); orders := orders w; log := log w |}).

Declare Scope method_scope.
Delimit Scope method_scope with method.
Notation "x <- e ;; k" := (mbind e (fun x => k))
  (at level 61, e at next level, right associativity) : method_scope.
Notation "e ;; k" := (mbind e (fun _ => k))
  (at level 61, right associativity) : method_scope.

(** [self.ib.placeOrder(contract, order)]: the trade handle, or the
    session's exception.  The broker records the order unless the call
    raised. *)
Definition ib_placeOrder (o : Order) : M Reply :=
  fun w =>
    match placeOrder (ib (strat w)) (orders w) o with
    | Unreachable => (Raise ConnectionError, w)
    | r =>
        (Return r,
         {| strat := strat w; orders := orders w ++ [o]; log := log w |})
    end.

(** [logger.info(f"Trade closed: {trade_details}")] *)
Definition logger_info (d : TradeDetails) : M unit :=
  fun w =>
    (Return tt,
     {| strat := strat w; orders := orders w; log := log w ++ [d] |}).

Definition set_position (p : option Position) (s : RangeStrategy)
  : RangeStrategy :=
  {| ib := ib s; symbol := symbol s; config := config s;
     position := p;
     historical_data := historical_data s;
     current_price := current_price s;
     latest_empty := latest_empty s;
     adx := adx s; bollinger := bollinger s; rsi := rsi s; atr := atr s;
     trades_today := trades_today s;
     daily_pnl := daily_pnl s;
     last_trade := last_trade s |}.

Definition set_trades_today (n : Z) (s : RangeStrategy) : RangeStrategy :=
  {| ib := ib s; symbol := symbol s; config := config s;
     position := position s;
     historical_data := historical_data s;
     current_price := current_price s;
     latest_empty := latest_empty s;
     adx := adx s; bollinger := bollinger s; rsi := rsi s; atr := atr s;
     trades_today := n;
     daily_pnl := daily_pnl s;
     last_trade := last_trade s |}.

Definition set_daily_pnl (x : Q) (s : RangeStrategy) : RangeStrategy :=
  {| ib := ib s; symbol := symbol s; config := config s;
     position := position s;
     historical_data := historical_data s;
     current_price := current_price s;
     latest_empty := latest_empty s;
     adx := adx s; bollinger := bollinger s; rsi := rsi s; atr := atr s;
     trades_today := trades_today s;
     daily_pnl := x;
     last_trade := last_trade s |}.

Definition set_last_trade (d : option TradeDetails) (s : RangeStrategy)
  : RangeStrategy :=
  {| ib := ib s; symbol := symbol s; config := config s;
     position := position s;
     historical_data := historical_data s;
     current_price := current_price s;
     latest_empty := latest_empty s;
     adx := adx s; bollinger := bollinger s; rsi := rsi s; atr := atr s;
     trades_today := trades_today s;
     daily_pnl := daily_pnl s;
     last_trade := d |}.

(** [execute_trade]; [now] is read by [evaluate_entry], [filled] is the
    later reading stored as [entry_time]. *)
Definition execute_trade (now filled : datetime) : M unit :=
  (s <- self ;;
   ok <- lift (evaluate_entry s now) ;;
   if negb ok then ret tt
   else
     quantity <- lift (calculate_position_size s (current_price s)) ;;
     if (quantity <=? 0)%Z then ret tt
     else
       (* Calculate order prices *)
       v <- lift (item_last (atr s)) ;;
       entry_price <- lift (number (current_price s)) ;;
       let stop_price :=
         fsub (float entry_price)
              (fmul (double v)
                    (float (stop_loss_atr_multiplier (config s)))) in
       let target_price :=
         fmul (float entry_price)
              (fadd (float 1) (float (profit_target_pct (config s)))) in
       (* Create bracket order *)
       let parent := MarketOrder BUY quantity in
       let take_profit := LimitOrder SELL quantity target_price in
       let stop_loss := StopOrder SELL quantity stop_price in
       (* Submit orders *)
       trade <- ib_placeOrder parent ;;
       ib_placeOrder take_profit ;;
       ib_placeOrder stop_loss ;;
       (* Update position tracking *)
       assign (set_position
                 (Some {| entry_price := entry_price;
                          quantity := quantity;
                          stop_price := stop_price;
                          target_price := target_price;
                          entry_time := filled |})) ;;
       s' <- self ;;
       assign (set_trades_today (trades_today s' + 1)))%method.

(** [close_position] *)
Definition close_position (now : datetime) (reason : string) : M unit :=
  (s <- self ;;
   match position s with
   | None => ret tt
   | Some pos =>
       (* Calculate PnL *)
       exit_price <- lift (number (current_price s)) ;;
       let pnl := (exit_price - entry_price pos) * inject_Z (quantity pos) in
       assign (set_daily_pnl (daily_pnl s + pnl)) ;;
       (* Log trade *)
       let trade_details :=
         {| td_symbol := symbol s;
            td_entry_price := entry_price pos;
            td_exit_price := exit_price;
            td_quantity := quantity pos;
            td_pnl := pnl;
            td_duration := total_seconds now (entry_time pos);
            td_reason := reason |} in
       logger_info trade_details ;;
       (* Reset position *)
       assign (set_position None) ;;
       assign (set_last_trade (Some trade_details))
   end)%method.

(** [manage_position] *)
Definition manage_position (now : datetime) : M unit :=
  (s <- self ;;
   match position s with
   | None => ret tt
   | Some pos =>
       (* Check if stop or target hit *)
       p <- lift (number (current_price s)) ;;
       if fle (Fin p) (stop_price pos) then close_position now "stop"
       else if fle (target_price pos) (Fin p)
       then close_position now "target"
       else ret tt
   end)%method.

(** ** Sequences of method calls *)

(** The mutating methods a caller can invoke on the object. *)
Inductive Call : Type :=
| Call_update_market_data (bar : Bar)
| Call_execute_trade (now filled : datetime)
| Call_manage_position (now : datetime)
| Call_close_position (now : datetime) (reason : string).

(** The world after one call, whether it returned or raised. *)
Definition call (lib : TaLib) (c : Call) (w : World) : World :=
  match c with
  | Call_update_market_data bar =>
      {| strat := snd (update_market_data lib bar (strat w));
         orders := orders w; log := log w |}
  | Call_execute_trade now filled => snd (execute_trade now filled w)
  | Call_manage_position now => snd (manage_position now w)
  | Call_close_position now reason => snd (close_position now reason w)
  end.

Definition calls (lib : TaLib) (cs : list Call) (w : World) : World :=
  fold_left (fun w c => call lib c w) cs w.

(** ** Vocabulary of the statements *)

(** The stop is hit: the price is at or below the stop price (which is
    then not NaN). *)
Definition stop_hit (pos : Position) (p : Q) : Prop :=
  match stop_price pos with
  | Fin sp => p <= sp
  | PInf => True
  | _ => False
  end.

(** The target is hit: the price is at or above the target price. *)
Definition target_hit (pos : Position) (p : Q) : Prop :=
  match target_price pos with
  | Fin tp => tp <= p
  | NInf => True
  | _ => False
  end.

(** A float below zero, and one that is zero or above. *)
Definition negative (a : pyfloat) : Prop :=
  match a with
  | Fin x => x < 0
  | NInf => True
  | _ => False
  end.

Definition not_negative (a : pyfloat) : Prop :=
  match a with
  | Fin x => 0 <= x
  | PInf => True
  | _ => False
  end.

(** The two quantities of [calculate_position_size], for the equity
    [equity] and the last ATR value [v]. *)
Definition risk_amount (c : Config) (equity : Q) : pyfloat :=
  fmul (float equity) (float (risk_per_trade_pct c)).

Definition stop_distance (c : Config) (v : pyfloat) : pyfloat :=
  fmul (double v) (float (stop_loss_atr_multiplier c)).

(** The record written when [pos] is closed at [exit_price]. *)
Definition closing_details (s : RangeStrategy) (now : datetime)
  (reason : string) (pos : Position) (exit_price : Q) : TradeDetails :=
  {| td_symbol := symbol s;
     td_entry_price := entry_price pos;
     td_exit_price := exit_price;
     td_quantity := quantity pos;
     td_pnl := (exit_price - entry_price pos) * inject_Z (quantity pos);
     td_duration := total_seconds now (entry_time pos);
     td_reason := reason |}.

(** The world after [pos] was closed at [exit_price]. *)
Definition closed_world (w : World) (now : datetime) (reason : string)
  (pos : Position) (exit_price : Q) : World :=
  let s := strat w in
  let d := closing_details s now reason pos exit_price in
  {| strat :=
       set_last_trade (Some d)
         (set_position None (set_daily_pnl (daily_pnl s + td_pnl d) s));
     orders := orders w;
     log := log w ++ [d] |}.

(** The object after a list of bars, oldest first, went through
    [update_market_data] one by one, whether a call returned or raised. *)
Definition feed (lib : TaLib) (bars : list Bar) (s : RangeStrategy)
  : RangeStrategy :=
  fold_left (fun s bar => snd (update_market_data lib bar s)) bars s.

(** The position [execute_trade] writes down for price [p], volatility [v]
    and size [q]. *)
Definition entered_position (c : Config) (p : Q) (v : pyfloat) (q : Z)
  (filled : datetime) : Position :=
  {| entry_price := p;
     quantity := q;
     stop_price :=
       fsub (float p) (fmul (double v) (float (stop_loss_atr_multiplier c)));
     target_price :=
       fmul (float p) (fadd (float 1) (float (profit_target_pct c)));
     entry_time := filled |}.

Definition parent_order (pos : Position) : Order :=
  MarketOrder BUY (quantity pos).
Definition take_profit_order (pos : Position) : Order :=
  LimitOrder SELL (quantity pos) (target_price pos).
Definition stop_loss_order (pos : Position) : Order :=
  StopOrder SELL (quantity pos) (stop_price pos).

Definition with_orders (w : World) (os : list Order) : World :=
  {| strat := strat w; orders := os; log := log w |}.

(** The world once the three orders went out and the position is noted. *)
Definition entered_world (w : World) (pos : Position) : World :=
  {| strat :=
       set_trades_today (trades_today (strat w) + 1)
         (set_position (Some pos) (strat w));
     orders :=
       ((orders w ++ [parent_order pos]) ++ [take_profit_order pos])
         ++ [stop_loss_order pos];
     log := log w |}.

(** The tail of [execute_trade]: three submissions, then the bookkeeping.
    The replies are looked at only to see whether the call raised. *)
Definition submit_bracket (w : World) (pos : Position)
  : outcome unit * World :=
  let gw := placeOrder (ib (strat w)) in
  let o1 := orders w ++ [parent_order pos] in
  let o2 := o1 ++ [take_profit_order pos] in
  match gw (orders w) (parent_order pos) with
  | Unreachable => (Raise ConnectionError, w)
  | _ =>
      match gw o1 (take_profit_order pos) with
      | Unreachable => (Raise ConnectionError, with_orders w o1)
      | _ =>
          match gw o2 (stop_loss_order pos) with
          | Unreachable => (Raise ConnectionError, with_orders w o2)
          | _ => (Return tt, entered_world w pos)
          end
      end
  end.



(** ** Concrete collaborators and objects, for running the engine *)

Module Scenario.

Definition flat (x : Q) (s : series) : series := map (fun _ => Fin x) s.

(** An indicator oracle that reports the same quiet, oversold market on
    every bar: ADX 15, bands 60/55/50, RSI 25, ATR 2. *)
Definition quiet_lib : TaLib := {|
  ADX := fun h _ _ _ => Return (flat 15 h);
  BBANDS := fun c _ _ _ _ => Return (flat 60 c, flat 55 c, flat 50 c);
  RSI := fun c _ => Return (flat 25 c);
  ATR := fun h _ _ _ => Return (flat 2 h)
|}.

(** TA-Lib as it treats periods: it refuses a period below 2. *)
Definition strict_lib : TaLib := {|
  ADX := fun h _ _ n =>
           if (n <? 2)%nat then Raise Exception else Return (flat 15 h);
  BBANDS := fun c n _ _ _ =>
              if (n <? 2)%nat then Raise Exception
              else Return (flat 60 c, flat 55 c, flat 50 c);
  RSI := fun c n =>
           if (n <? 2)%nat then Raise Exception else Return (flat 25 c);
  ATR := fun h _ _ n =>
           if (n <? 2)%nat then Raise Exception else Return (flat 2 h)
|}.

(** A broker with 100000 in cash that takes every order. *)
Definition paper_ib : IB :=
  {| accountSummary := [100000]; placeOrder := fun _ _ => Accepted |}.

(** The same account at a broker that rejects every order. *)
Definition rejecting_ib : IB :=
  {| accountSummary := [100000]; placeOrder := fun _ _ => Rejected |}.

(** The same account behind a session that is down. *)
Definition offline_ib : IB :=
  {| accountSummary := [100000]; placeOrder := fun _ _ => Unreachable |}.

(** Noon of day [d]. *)
Definition noon (d : Z) : datetime := (d * usec_per_day + time 12 0)%Z.

(** An object whose indicators were assigned as one-entry lists: ADX [a],
    lower band [lo], RSI [r], ATR [v]; last price [p]; [n] trades so far
    today. *)
Definition engine (g : IB) (c : Config) (a lo r v : pyfloat) (p : Q) (n : Z)
  : RangeStrategy := {|
  ib := g; symbol := "AAPL"; config := c;
  position := None;
  historical_data := [];
  current_price := Some p;
  latest_empty := false;
  adx := Some (PyList [a]);
  bollinger := Some {| upper := PyList [NaN]; middle := PyList [NaN];
                       lower := PyList [lo] |};
  rsi := Some (PyList [r]);
  atr := Some (PyList [v]);
  trades_today := n;
  daily_pnl := 0;
  last_trade := None
|}.

(** Trend 15, price 49 under the lower band 50, RSI 25, ATR 2. *)
Definition eligible (g : IB) (n : Z) : RangeStrategy :=
  engine g defaults (Fin 15) (Fin 50) (Fin 25) (Fin 2) 49 n.

Definition world_of (s : RangeStrategy) : World :=
  {| strat := s; orders := []; log := [] |}.

(** A long position of [q] shares entered at [e], stop [sp], target [tp]. *)
Definition long (e : Q) (q : Z) (sp tp : Q) : Position :=
  {| entry_price := e; quantity := q; stop_price := Fin sp;
     target_price := Fin tp; entry_time := noon 0 |}.

(** The same object holding [pos], with last price [p] and one trade
    counted. *)
Definition holding (g : IB) (pos : Position) (p : Q) : RangeStrategy :=
  set_position (Some pos)
    (engine g defaults (Fin 15) (Fin 50) (Fin 25) (Fin 2) p 1).

(** A user configuration that sets at most the ATR period and the stop
    multiplier. *)
Definition overrides (atr_n : option nat) (mult : option Q) : UserConfig := {|
  u_adx_period := None; u_adx_threshold := None;
  u_bollinger_ma_period := None; u_bollinger_std_dev := None;
  u_rsi_period := None; u_rsi_oversold := None; u_rsi_overbought := None;
  u_atr_period := atr_n;
  u_stop_loss_atr_multiplier := mult; u_profit_target_pct := None;
  u_risk_per_trade_pct := None; u_max_trades_per_day := None;
  u_daily_loss_limit_pct := None;
  u_trade_start_time := None; u_trade_end_time := None
|}.

Definition only_atr_period (n : nat) : UserConfig := overrides (Some n) None.

(** A user configuration that sets the RSI period alone. *)
Definition only_rsi_period (n : nat) : UserConfig := {|
  u_adx_period := None; u_adx_threshold := None;
  u_bollinger_ma_period := None; u_bollinger_std_dev := None;
  u_rsi_period := Some n; u_rsi_oversold := None; u_rsi_overbought := None;
  u_atr_period := None;
  u_stop_loss_atr_multiplier := None; u_profit_target_pct := None;
  u_risk_per_trade_pct := None; u_max_trades_per_day := None;
  u_daily_loss_limit_pct := None;
  u_trade_start_time := None; u_trade_end_time := None
|}.

(** The default configuration with another stop multiplier. *)
Definition with_multiplier (m : Q) : Config :=
  _validate_config (Some (overrides None (Some m))).

Definition bar_at (t : datetime) (c : Q) : Bar :=
  {| bar_time := t; bar_open := c; bar_high := c; bar_low := c;
     bar_close := c; bar_volume := 100 |}.
Arguments bar_at t%_Z c%_Q.

(** A bar between 48 and 50 that opens and closes at 49: a true range of
    2 on every bar. *)
Definition range_bar (t : datetime) : Bar :=
  {| bar_time := t; bar_open := 49; bar_high := 50; bar_low := 48;
     bar_close := 49; bar_volume := 100 |}.

(** [k] minutes after noon of day 0. *)
Definition minute (k : Z) : datetime := (noon 0 + k * 60000000)%Z.

Definition fresh_world (g : IB) : World :=
  world_of (__init__ g "AAPL" None).

(** Twenty one-minute bars closing at 49: with the default periods the
    indicators are computed on the twentieth. *)
Definition warm_up : list Call :=
  map (fun k => Call_update_market_data (bar_at (minute (Z.of_nat k)) 49))
      (seq 1 20).

(** An entry at minute [k], a bar closing at 50 (above the target), the
    exit check, and a bar back at 49. *)
Definition round_trip (k : Z) : list Call :=
  [Call_execute_trade (minute k) (minute k);
   Call_update_market_data (bar_at (minute (k + 1)) 50);
   Call_manage_position (minute (k + 1));
   Call_update_market_data (bar_at (minute (k + 2)) 49)].


End Scenario.

(** ** Vocabulary of the further properties *)

(** The reading [a] does not compare as greater than [limit]: it is NaN,
    minus infinity or a number up to [limit]. *)
Definition not_above (a : pyfloat) (limit : Q) : Prop :=
  match a with
  | Fin x => x <= limit
  | PInf => False
  | _ => True
  end.

(** The price [p] compares as at or below the band [lo]: the band is plus
    infinity or a number from [p] on. *)
Definition at_or_below (p : Q) (lo : pyfloat) : Prop :=
  match lo with
  | Fin x => p <= x
  | PInf => True
  | _ => False
  end.

(** The seven tests of [evaluate_entry], as conditions on the object and
    the clock. *)
Definition entry_conditions (s : RangeStrategy) (now : datetime) : Prop :=
  position s = None /\
  exists (a r lo : pyfloat) (p : Q),
    item_last (adx s) = Return a /\
    lower_last (bollinger s) = Return lo /\
    current_price s = Some p /\
    item_last (rsi s) = Return r /\
    not_above a (adx_threshold (config s)) /\
    at_or_below p lo /\
    not_above r (rsi_oversold (config s)) /\
    (trade_start_time (config s) <= time_of now <= trade_end_time (config s))%Z /\
    (trades_today s < max_trades_per_day (config s))%Z /\
    - daily_loss_limit_pct (config s) < daily_pnl s.

(** The world right after the constructor. *)
Definition new_world (g : IB) (sym : string) (cfg : option UserConfig)
  : World :=
  {| strat := __init__ g sym cfg; orders := []; log := [] |}.



(** A broker session that never raises. *)
Definition always_answers (g : IB) : Prop :=
  forall os o, placeOrder g os o <> Unreachable.

(** The four indicator attributes are all None, or all set. *)
Definition indicators_unset (s : RangeStrategy) : Prop :=
  adx s = None /\ bollinger s = None /\ rsi s = None /\ atr s = None.

Definition indicators_set (s : RangeStrategy) : Prop :=
  adx s <> None /\ bollinger s <> None /\ rsi s <> None /\ atr s <> None.

(** An indicator attribute as the engine's own code leaves it: None, or a
    Series stored by [calculate_indicators]. *)
Definition own_indicator (x : option array) : Prop :=
  x = None \/ exists l, x = Some (PdSeries l).

(** ** Configuration as the dict it is

    [self.config] is a Python dict.  The record [Config] above is what the
    engine reads from it; here is the dict itself, as built by
    [_validate_config] from whatever the caller passes, and the two callers
    in the repository: the JSON loader of [run_strategy.py] and the
    parameter form of [strategy_ui.py]. *)

Module Raw.

Inductive value : Type :=
| VInt (z : Z)
| VFloat (x : pyfloat)
| VStr (s : string)
| VTime (t : timeofday).

(** A dict, in insertion order; each key occurs once. *)
Definition dict : Type := list (string * value).

Definition keys (d : dict) : list string := map fst d.

(** [d.get(k)] *)
Fixpoint get (k : string) (d : dict) : option value :=
  match d with
  | [] => None
  | (k', v) :: d' => if String.eqb k k' then Some v else get k d'
  end.

(** [d[k] = v]: an existing key keeps its place. *)
Fixpoint set (k : string) (v : value) (d : dict) : dict :=
  match d with
  | [] => [(k, v)]
  | (k', v') :: d' =>
      if String.eqb k k' then (k, v) :: d' else (k', v') :: set k v d'
  end.

(** [{**d, **u}] *)
Definition update (d u : dict) : dict :=
  fold_left (fun acc kv => set (fst kv) (snd kv) acc) u d.

Definition defaults : dict :=
  [("adx_period", VInt 14);
   ("adx_threshold", VInt 20);
   ("bollinger_ma_period", VInt 20);
   ("bollinger_std_dev", VInt 2);
   ("rsi_period", VInt 14);
   ("rsi_oversold", VInt 30);
   ("rsi_overbought", VInt 70);
   ("atr_period", VInt 14);
   ("stop_loss_atr_multiplier", VFloat (Fin (3 # 2)));
   ("profit_target_pct", VFloat (Fin (3 # 200)));
   ("risk_per_trade_pct", VFloat (Fin (1 # 100)));
   ("max_trades_per_day", VInt 5);
   ("daily_loss_limit_pct", VFloat (Fin (1 # 50)));
   ("trade_start_time", VTime (time 9 35));
   ("trade_end_time", VTime (time 15 55))]%string.

(** [_validate_config] on the dict: [{**defaults, **(config or {})}]. *)
Definition _validate_config (config : option dict) : dict :=
  update defaults
    match config with
    | Some u => u
    | None => []
    end.

(** The keys the engine subscripts [self.config] with. *)
Definition keys_read : list string :=
  ["adx_period"; "adx_threshold"; "bollinger_ma_period"; "bollinger_std_dev";
   "rsi_period"; "rsi_oversold"; "atr_period"; "stop_loss_atr_multiplier";
   "profit_target_pct"; "risk_per_trade_pct"; "max_trades_per_day";
   "daily_loss_limit_pct"; "trade_start_time"; "trade_end_time"]%string.

(** What a loader can raise: KeyError for a missing key, or one of the
    exceptions above. *)
Inductive raised : Type :=
| KeyError (k : string)
| Other (e : exn).

Inductive result (A : Type) : Type :=
| Ok (a : A)
| Err (r : raised).
Arguments Ok {A} a.
Arguments Err {A} r.

(** [dt_time.fromisoformat(config[k])] for a value read from JSON;
    [fromisoformat] is the library's parser of time strings. *)
Definition parse_time (fromisoformat : string -> option timeofday)
  (k : string) (config : dict) : result value :=
  match get k config with
  | None => Err (KeyError k)
  | Some (VStr s) =>
      match fromisoformat s with
      | Some t => Ok (VTime t)
      | None => Err (Other ValueError)
      end
  | Some _ => Err (Other TypeError)
  end.

(** [load_config] of [run_strategy.py], given the object read from the
    JSON file. *)
Definition load_config (fromisoformat : string -> option timeofday)
  (config : dict) : result dict :=
  match parse_time fromisoformat "trade_start_time" config with
  | Err r => Err r
  | Ok t1 =>
      let config := set "trade_start_time" t1 config in
      match parse_time fromisoformat "trade_end_time" config with
      | Err r => Err r
      | Ok t2 => Ok (set "trade_end_time" t2 config)
      end
  end.

(** The entries of the parameter form of [strategy_ui.py]: key and text. *)
Definition form : Type := list (string * string).

(** [create_parameter_panel]: the form with its initial texts. *)
Definition create_parameter_panel : form :=
  [("symbol", "AAPL"); ("adx_period", "14"); ("adx_threshold", "20");
   ("bollinger_period", "20"); ("bollinger_std_dev", "2");
   ("rsi_period", "14"); ("rsi_oversold", "30"); ("atr_period", "14");
   ("stop_loss_mult", "1.5"); ("profit_target", "0.015");
   ("risk_per_trade", "0.01"); ("max_trades", "5");
   ("daily_loss_limit", "0.02")]%string.

(** The form after the user typed [texts k] into the field of key [k]. *)
Definition edited (texts : string -> string) : form :=
  map (fun kv => (fst kv, texts (fst kv))) create_parameter_panel.

(** [get_parameters]; [float] is Python's conversion of a string, None
    when it raises ValueError. *)
Fixpoint get_parameters_from (float : string -> option pyfloat)
  (fields : form) (params : dict) : outcome dict :=
  match fields with
  | [] => Return params
  | (key, value) :: rest =>
      if String.eqb key "symbol" then
        if String.eqb value "" then Raise ValueError
        else get_parameters_from float rest (set key (VStr value) params)
      else
        match float value with
        | Some x => get_parameters_from float rest (set key (VFloat x) params)
        | None => Raise ValueError
        end
  end.

Definition get_parameters (float : string -> option pyfloat) (fields : form)
  : outcome dict :=
  get_parameters_from float fields [].

(** [validate_parameters] *)
Definition validate_parameters (float : string -> option pyfloat)
  (fields : form) : bool :=
  match get_parameters float fields with
  | Return _ => true
  | Raise _ => false
  end.

(** [start_strategy], up to the construction of the engine: the [config]
    of the [RangeStrategy] it builds, or None when it gives up before. *)
Definition start_strategy (float : string -> option pyfloat)
  (isConnected : bool) (fields : form) : option dict :=
  if negb isConnected then None
  else if negb (validate_parameters float fields) then None
  else
    match get_parameters float fields with
    | Return params => Some (_validate_config (Some params))
    | Raise _ => None
    end.

End Raw.

(** ** [strategy.py]: the moving-average crossover

    Closes are plain numbers; a rolling mean over [window] rows with
    [min_periods=1] averages the rows seen so far until [window] of them
    are available.  pandas refuses a window of 0 when [min_periods] is 1. *)

Module Crossover.

Record MovingAverageCrossoverStrategy : Type := mkStrategy {
  short_window : nat;
  long_window : nat
}.

(** The DataFrame [signals], column by column. *)
Record Signals : Type := mkSignals {
  signal : list Q;
  short_mavg : list Q;
  long_mavg : list Q;
  positions : list pyfloat
}.

Definition sum (l : list Q) : Q := fold_right Qplus 0 l.

Definition mean (l : list Q) : Q :=
  sum l / inject_Z (Z.of_nat (List.length l)).

(** [close.rolling(window=w, min_periods=1).mean()] *)
Definition rolling_mean (w : nat) (close : list Q) : outcome (list Q) :=
  match w with
  | O => Raise ValueError
  | _ =>
      Return (map (fun i => mean (Py.tail w (firstn (S i) close)))
                  (seq 0 (List.length close)))
  end.

(** [(a > b).astype(float)], row by row. *)
Fixpoint greater (a b : list Q) : list Q :=
  match a, b with
  | x :: a', y :: b' =>
      (if Qle_bool x y then 0 else 1) :: greater a' b'
  | _, _ => []
  end.

Fixpoint diff_from (prev : Q) (l : list Q) : list pyfloat :=
  match l with
  | [] => []
  | x :: l' => Fin (x - prev) :: diff_from x l'
  end.

(** [series.diff()]: NaN on the first row. *)
Definition diff (l : list Q) : list pyfloat :=
  match l with
  | [] => []
  | x :: l' => NaN :: diff_from x l'
  end.

(** [generate_signals], given the column [data['Close']]. *)
Definition generate_signals (self : MovingAverageCrossoverStrategy)
  (close : list Q) : outcome Signals :=
  (short <- rolling_mean (short_window self) close ;;
   long <- rolling_mean (long_window self) close ;;
   let sig := greater short long in
   Return {| signal := sig;
             short_mavg := short;
             long_mavg := long;
             positions := diff sig |})%py.

(** [series.sum()], which skips NaN; the columns summed here hold no
    infinity. *)
Definition nansum (l : list pyfloat) : Q :=
  fold_right (fun x acc => match x with Fin q => q + acc | _ => acc end)
             0 l.

End Crossover.

(** ** [src/connection.py] and [ibkr_quant/main.py]: connecting with
    back-off

    The session's [connect()] is outside the repository: [link k] is what
    its call number [k] does, None for success or the exception raised.
    The object keeps the [connected] flag; the seconds passed to
    [time.sleep] are recorded in order. *)

Module Connection.

Record state : Type := mkState {
  connected : bool;
  slept : list Z
}.

Definition set_connected (s : state) : state :=
  {| connected := true; slept := slept s |}.

Definition sleep (seconds : Z) (s : state) : state :=
  {| connected := connected s; slept := slept s ++ [seconds] |}.

(** The loop [for attempt in range(retries)] from [attempt] on, with
    [remaining] rounds to go; [catches e] is whether the [except] clause
    covers [e]. *)
Fixpoint connect_loop (catches : exn -> bool) (link : nat -> option exn)
  (remaining attempt : nat) (s : state) : outcome bool * state :=
  match remaining with
  | O => (Return false, s)
  | S remaining' =>
      match link attempt with
      | None => (Return true, set_connected s)
      | Some e =>
          if catches e then
            let wait_time := (2 ^ Z.of_nat attempt)%Z in
            connect_loop catches link remaining' (S attempt)
                         (sleep wait_time s)
          else (Raise e, s)
      end
  end.

(** [IBKRConnection.connect]: [except ConnectionError]. *)
Definition IBKRConnection_connect (link : nat -> option exn) (retries : Z)
  (s : state) : outcome bool * state :=
  connect_loop
    (fun e => match e with ConnectionError => true | _ => false end)
    link (Z.to_nat retries) 0 s.

(** [IBKRQuant.connect]: [except Exception]. *)
Definition IBKRQuant_connect (link : nat -> option exn) (retries : Z)
  (s : state) : outcome bool * state :=
  connect_loop (fun _ => true) link (Z.to_nat retries) 0 s.

(** The waits of the first [n] failed attempts: 1, 2, 4, ... *)
Definition backoff (n : nat) : list Z :=
  map (fun k => (2 ^ Z.of_nat k)%Z) (seq 0 n).

Definition total (l : list Z) : Z := fold_right Z.add 0%Z l.

End Connection.

(** ** Reading the dict at the types of [Config] *)

Module Reading.

Definition as_nat (v : Raw.value) : option nat :=
  match v with
  | Raw.VInt z => if (0 <=? z)%Z then Some (Z.to_nat z) else None
  | _ => None
  end.

Definition as_Z (v : Raw.value) : option Z :=
  match v with
  | Raw.VInt z => Some z
  | _ => None
  end.

Definition as_Q (v : Raw.value) : option Q :=
  match v with
  | Raw.VInt z => Some (inject_Z z)
  | Raw.VFloat (Fin q) => Some q
  | _ => None
  end.

Definition as_time (v : Raw.value) : option timeofday :=
  match v with
  | Raw.VTime t => Some t
  | _ => None
  end.

(** [d[k]] read with [rd]; None when the key is missing or of another
    type. *)
Definition field {A} (rd : Raw.value -> option A) (k : string)
  (d : Raw.dict) : option A :=
  match Raw.get k d with
  | Some v => rd v
  | None => None
  end.

Definition and_then {A B} (o : option A) (k : A -> option B) : option B :=
  match o with
  | Some a => k a
  | None => None
  end.

(** The record the engine model works on, read off a complete dict. *)
Definition config_of (d : Raw.dict) : option Config :=
  and_then (field as_nat "adx_period" d) (fun a1 =>
  and_then (field as_Q "adx_threshold" d) (fun a2 =>
  and_then (field as_nat "bollinger_ma_period" d) (fun a3 =>
  and_then (field as_Q "bollinger_std_dev" d) (fun a4 =>
  and_then (field as_nat "rsi_period" d) (fun a5 =>
  and_then (field as_Q "rsi_oversold" d) (fun a6 =>
  and_then (field as_Q "rsi_overbought" d) (fun a7 =>
  and_then (field as_nat "atr_period" d) (fun a8 =>
  and_then (field as_Q "stop_loss_atr_multiplier" d) (fun a9 =>
  and_then (field as_Q "profit_target_pct" d) (fun a10 =>
  and_then (field as_Q "risk_per_trade_pct" d) (fun a11 =>
  and_then (field as_Z "max_trades_per_day" d) (fun a12 =>
  and_then (field as_Q "daily_loss_limit_pct" d) (fun a13 =>
  and_then (field as_time "trade_start_time" d) (fun a14 =>
  and_then (field as_time "trade_end_time" d) (fun a15 =>
  Some {| adx_period := a1; adx_threshold := a2;
          bollinger_ma_period := a3; bollinger_std_dev := a4;
          rsi_period := a5; rsi_oversold := a6; rsi_overbought := a7;
          atr_period := a8; stop_loss_atr_multiplier := a9;
          profit_target_pct := a10; risk_per_trade_pct := a11;
          max_trades_per_day := a12; daily_loss_limit_pct := a13;
          trade_start_time := a14; trade_end_time := a15 |}
  ))))))))))))))).

(** The caller's dict as the partial record [UserConfig]. *)
Definition user_of (u : Raw.dict) : UserConfig := {|
  u_adx_period := field as_nat "adx_period" u;
  u_adx_threshold := field as_Q "adx_threshold" u;
  u_bollinger_ma_period := field as_nat "bollinger_ma_period" u;
  u_bollinger_std_dev := field as_Q "bollinger_std_dev" u;
  u_rsi_period := field as_nat "rsi_period" u;
  u_rsi_oversold := field as_Q "rsi_oversold" u;
  u_rsi_overbought := field as_Q "rsi_overbought" u;
  u_atr_period := field as_nat "atr_period" u;
  u_stop_loss_atr_multiplier := field as_Q "stop_loss_atr_multiplier" u;
  u_profit_target_pct := field as_Q "profit_target_pct" u;
  u_risk_per_trade_pct := field as_Q "risk_per_trade_pct" u;
  u_max_trades_per_day := field as_Z "max_trades_per_day" u;
  u_daily_loss_limit_pct := field as_Q "daily_loss_limit_pct" u;
  u_trade_start_time := field as_time "trade_start_time" u;
  u_trade_end_time := field as_time "trade_end_time" u
|}.

(** The key is absent from [u], or its value reads with [rd]. *)
Definition readable {A} (rd : Raw.value -> option A) (k : string)
  (u : Raw.dict) : Prop :=
  Raw.get k u = None \/ field rd k u <> None.

(** Every key of [u] that the engine knows has a value of its type. *)
Definition well_typed (u : Raw.dict) : Prop :=
  readable as_nat "adx_period" u /\
  readable as_Q "adx_threshold" u /\
  readable as_nat "bollinger_ma_period" u /\
  readable as_Q "bollinger_std_dev" u /\
  readable as_nat "rsi_period" u /\
  readable as_Q "rsi_oversold" u /\
  readable as_Q "rsi_overbought" u /\
  readable as_nat "atr_period" u /\
  readable as_Q "stop_loss_atr_multiplier" u /\
  readable as_Q "profit_target_pct" u /\
  readable as_Q "risk_per_trade_pct" u /\
  readable as_Z "max_trades_per_day" u /\
  readable as_Q "daily_loss_limit_pct" u /\
  readable as_time "trade_start_time" u /\
  readable as_time "trade_end_time" u.

End Reading.


(** * Properties *)

(** ** Arithmetic and list facts *)

Lemma fle_Fin (a b : Q) : fle (Fin a) (Fin b) = true <-> a <= b.
Proof. simpl. apply Qle_bool_iff. Qed.

Lemma Qle_bool_false (a b : Q) : Qle_bool a b = false <-> ~ a <= b.
Proof.
  rewrite <- Qle_bool_iff. destruct (Qle_bool a b); split; intros H.
  - discriminate.
  - exfalso. apply H. reflexivity.
  - intro H'. discriminate.
  - reflexivity.
Qed.

Lemma tail_length {A} (n : nat) (l : list A) :
  (List.length (Py.tail n l) <= n)%nat.
Proof. unfold Py.tail. rewrite length_skipn. lia. Qed.

Lemma tail_short {A} (n : nat) (l : list A) :
  (List.length l <= n)%nat -> Py.tail n l = l.
Proof.
  intros H. unfold Py.tail.
  replace (List.length l - n)%nat with 0%nat by lia. reflexivity.
Qed.

Lemma last_error_app {A} (l : list A) (a : A) :
  last_error (l ++ [a]) = Some a.
Proof.
  induction l as [|b l IH]; simpl.
  - reflexivity.
  - destruct (l ++ [a]) eqn:E.
    + destruct l; discriminate.
    + exact IH.
Qed.

Lemma last_error_skipn {A} (k : nat) (l : list A) :
  (k < List.length l)%nat -> last_error (skipn k l) = last_error l.
Proof.
  revert l. induction k as [|k IH]; intros l H.
  - reflexivity.
  - destruct l as [|a l]; simpl in H; [lia|].
    simpl skipn. rewrite IH by lia.
    destruct l; [simpl in H; lia | reflexivity].
Qed.

(** The newest row survives the trimming of the window. *)
Lemma last_error_tail_app {A} (n : nat) (l : list A) (a : A) :
  last_error (Py.tail (n + 20) (l ++ [a])) = Some a.
Proof.
  unfold Py.tail. rewrite last_error_skipn.
  - apply last_error_app.
  - rewrite length_app. simpl. lia.
Qed.

(** ** Rounding *)

(** The doubles next to 0.1 and to 0.015, a double that is its own
    rounding, the smallest double and half of it, and the first number that
    rounds to infinity. *)
Example round_examples :
  float (1 # 10) = Fin (3602879701896397 # 36028797018963968) /\
  float (3 # 200) = Fin (1080863910568919 # 72057594037927936) /\
  float (3602879701896397 # 36028797018963968)
    = Fin (3602879701896397 # 36028797018963968) /\
  float (1 # 2 ^ 1074) = Fin (1 # 2 ^ 1074) /\
  float (1 # 2 ^ 1075) = Fin 0 /\
  float (inject_Z (2 ^ 1024 - 2 ^ 970 - 1)) = Fin (inject_Z (2 ^ 1024 - 2 ^ 971)) /\
  float (inject_Z (2 ^ 1024 - 2 ^ 970)) = PInf.
Proof. vm_compute. repeat split. Qed.

(** Rounding keeps the sign. *)

Lemma nearest_even_nonneg (num den : Z) :
  (0 <= num)%Z -> (0 < den)%Z -> (0 <= nearest_even num den)%Z.
Proof.
  intros Hn Hd. unfold nearest_even.
  assert (H : (0 <= num / den)%Z) by (apply Z.div_pos; assumption).
  destruct (2 * (num mod den) ?= den)%Z; [|lia|lia].
  destruct (Z.even (num / den)); lia.
Qed.

(** The significand chosen by [round], before the sign is put back. *)
Lemma round_cases (q : Q) :
  round q = Fin 0 \/
  exists (m : Z) (r : pyfloat),
    (0 <= m)%Z /\
    let sm := if (Qnum q <? 0)%Z then (- m)%Z else m in
    round q = r /\
    (r = (if (Qnum q <? 0)%Z then NInf else PInf) \/
     (exists k, r = Fin (inject_Z (sm * 2 ^ k))) \/
     (exists d, r = Fin (Qred (Qmake sm d)))).
Proof.
  unfold round.
  destruct (Z.abs (Qnum q) =? 0)%Z; [left; reflexivity|]. right.
  set (n := Z.abs (Qnum q)). set (d := Zpos (Qden q)).
  set (e := if below_pow2 n d (Z.log2 n - Z.log2 d)
            then (Z.log2 n - Z.log2 d - 1)%Z else (Z.log2 n - Z.log2 d)%Z).
  set (p := Z.max (e - 52) (- 1074)).
  assert (Hn : (0 <= n)%Z) by apply Z.abs_nonneg.
  assert (Hd : (0 < d)%Z) by reflexivity.
  destruct (0 <=? p)%Z eqn:Hp.
  - apply Z.leb_le in Hp.
    exists (nearest_even n (d * 2 ^ p)). eexists. split.
    + apply nearest_even_nonneg; [exact Hn|].
      apply Z.mul_pos_pos; [exact Hd|]. apply Z.pow_pos_nonneg; lia.
    + cbv zeta. split; [reflexivity|].
      destruct (2 ^ 1024 <=? nearest_even n (d * 2 ^ p) * 2 ^ p)%Z.
      * left. reflexivity.
      * right. left. exists p. reflexivity.
  - exists (nearest_even (n * 2 ^ (- p)) d). eexists. split.
    + apply nearest_even_nonneg; [|exact Hd].
      apply Z.mul_nonneg_nonneg; [exact Hn|]. apply Z.pow_nonneg. lia.
    + cbv zeta. split; [reflexivity|]. right. right.
      eexists. reflexivity.
Qed.

Lemma round_nonneg (q : Q) : 0 <= q -> not_negative (round q).
Proof.
  intros Hq.
  assert (Hs : (Qnum q <? 0)%Z = false).
  { apply Z.ltb_ge. unfold Qle in Hq. simpl in Hq. lia. }
  destruct (round_cases q) as [-> | (m & r & Hm & Hr)].
  - simpl. apply Qle_refl.
  - cbv zeta in Hr. rewrite Hs in Hr.
    destruct Hr as [-> [-> | [[k ->] | [d ->]]]]; cbn [not_negative].
    + exact I.
    + unfold Qle. cbn [Qnum Qden inject_Z].
      assert (0 <= 2 ^ k)%Z by (apply Z.pow_nonneg; lia). nia.
    + rewrite Qred_correct. unfold Qle. cbn [Qnum Qden]. lia.
Qed.


(** ** What [calculate_indicators] leaves alone *)

Lemma calculate_indicators_frame (lib : TaLib) (s : RangeStrategy) :
  let s' := snd (calculate_indicators lib s) in
  ib s' = ib s /\ symbol s' = symbol s /\ config s' = config s /\
  position s' = position s /\ historical_data s' = historical_data s /\
  current_price s' = current_price s /\ trades_today s' = trades_today s /\
  daily_pnl s' = daily_pnl s /\ last_trade s' = last_trade s.
Proof.
  unfold calculate_indicators.
  destruct (List.length (historical_data s) <? max_period (config s))%nat.
  - repeat split.
  - destruct (ADX lib _ _ _ _) as [a|e]; [|repeat split].
    destruct (BBANDS lib _ _ _ _ _) as [[[up mid] lo]|e]; [|repeat split].
    destruct (RSI lib _ _) as [r|e]; [|repeat split].
    destruct (ATR lib _ _ _ _) as [v|e]; repeat split.
Qed.

Lemma calculate_indicators_short (lib : TaLib) (s : RangeStrategy) :
  (List.length (historical_data s) < max_period (config s))%nat ->
  calculate_indicators lib s = (Return tt, s).
Proof.
  intros H. unfold calculate_indicators.
  apply Nat.ltb_lt in H. rewrite H. reflexivity.
Qed.

(** The object as [update_market_data] hands it to
    [calculate_indicators]. *)
Lemma update_market_data_unfold (lib : TaLib) (bar : Bar) (s : RangeStrategy) :
  update_market_data lib bar s =
    calculate_indicators lib
      {| ib := ib s; symbol := symbol s; config := config s;
         position := position s;
         historical_data :=
           Py.tail (max_period (config s) + 20)
                   (historical_data s ++ [new_row bar]);
         current_price := Some (bar_close bar);
         latest_empty := latest_empty s;
         adx := adx s; bollinger := bollinger s; rsi := rsi s; atr := atr s;
         trades_today := trades_today s;
         daily_pnl := daily_pnl s;
         last_trade := last_trade s |}.
Proof. reflexivity. Qed.

Lemma update_market_data_frame (lib : TaLib) (bar : Bar) (s : RangeStrategy) :
  let s' := snd (update_market_data lib bar s) in
  ib s' = ib s /\ symbol s' = symbol s /\ config s' = config s /\
  position s' = position s /\
  historical_data s' =
    Py.tail (max_period (config s) + 20) (historical_data s ++ [new_row bar]) /\
  current_price s' = Some (bar_close bar) /\
  trades_today s' = trades_today s /\
  daily_pnl s' = daily_pnl s /\ last_trade s' = last_trade s.
Proof.
  rewrite update_market_data_unfold.
  match goal with |- context [calculate_indicators lib ?x] =>
    pose proof (calculate_indicators_frame lib x) as H end.
  simpl in H. exact H.
Qed.

(** ** Entry evaluation *)

(** C10.  Whatever the indicators, the price, the clock and the daily
    counters are (also when indicators are still None), [evaluate_entry]
    returns False as soon as a position is held. *)
Theorem evaluate_entry_position_held :
  forall (s : RangeStrategy) (now : datetime) (pos : Position),
    position s = Some pos ->
    evaluate_entry s now = Return false.
Proof.
  intros s now pos H. unfold evaluate_entry. rewrite H. reflexivity.
Qed.

Lemma evaluate_entry_position_held_witness :
  position (Scenario.holding Scenario.paper_ib (Scenario.long 100 10 98 105) 101)
    = Some (Scenario.long 100 10 98 105) /\
  evaluate_entry (Scenario.holding Scenario.paper_ib (Scenario.long 100 10 98 105) 101)
                 (Scenario.noon 0) = Return false.
Proof.
  split.
  - reflexivity.
  - apply (@evaluate_entry_position_held
             (Scenario.holding Scenario.paper_ib (Scenario.long 100 10 98 105) 101)
             (Scenario.noon 0) (Scenario.long 100 10 98 105)).
    reflexivity.
Defined.

(** The scenario of the specification, on indicators assigned as lists:
    trend 15, price 49 under the band at 50, momentum 25, inside the
    session, nothing traded yet. *)
Example evaluate_entry_eligible :
  evaluate_entry (Scenario.eligible Scenario.paper_ib 0) (Scenario.noon 0)
    = Return true.
Proof. reflexivity. Qed.

(** A NaN reading of ADX or RSI does not block the entry, since a
    comparison with NaN is False; a NaN lower band does. *)
Example evaluate_entry_nan_readings :
  evaluate_entry
    (Scenario.engine Scenario.paper_ib defaults NaN (Fin 50) NaN (Fin 2) 49 0)
    (Scenario.noon 0) = Return true /\
  evaluate_entry
    (Scenario.engine Scenario.paper_ib defaults (Fin 15) NaN (Fin 25) (Fin 2)
                     49 0)
    (Scenario.noon 0) = Return false.
Proof. split; reflexivity. Qed.

(** ** Closing a position *)

Lemma stop_hit_iff (pos : Position) (p : Q) :
  fle (Fin p) (stop_price pos) = true <-> stop_hit pos p.
Proof.
  unfold stop_hit. destruct (stop_price pos) as [sp| | |]; cbn [fle].
  - apply Qle_bool_iff.
  - split; [intros _; exact I | reflexivity].
  - split; [discriminate | contradiction].
  - split; [discriminate | contradiction].
Qed.

Lemma target_hit_iff (pos : Position) (p : Q) :
  fle (target_price pos) (Fin p) = true <-> target_hit pos p.
Proof.
  unfold target_hit. destruct (target_price pos) as [tp| | |]; cbn [fle].
  - apply Qle_bool_iff.
  - split; [discriminate | contradiction].
  - split; [intros _; exact I | reflexivity].
  - split; [discriminate | contradiction].
Qed.

Lemma close_position_open (w : World) (now : datetime) (reason : string)
  (pos : Position) (exit_price : Q) :
  position (strat w) = Some pos ->
  current_price (strat w) = Some exit_price ->
  close_position now reason w
    = (Return tt, closed_world w now reason pos exit_price).
Proof.
  intros Hp Hc. unfold close_position, mbind, self. cbv beta iota.
  rewrite Hp. unfold lift. rewrite Hc. reflexivity.
Qed.

Lemma manage_position_open (w : World) (now : datetime)
  (pos : Position) (p : Q) :
  position (strat w) = Some pos ->
  current_price (strat w) = Some p ->
  manage_position now w =
    if fle (Fin p) (stop_price pos) then close_position now "stop" w
    else if fle (target_price pos) (Fin p) then close_position now "target" w
    else (Return tt, w).
Proof.
  intros Hp Hc. unfold manage_position, mbind, self. cbv beta iota.
  rewrite Hp. unfold lift. rewrite Hc. unfold number. cbv beta iota.
  destruct (fle (Fin p) (stop_price pos)); [reflexivity|].
  destruct (fle (target_price pos) (Fin p)); reflexivity.
Qed.

(** C8.  Closing an open position at the current price realises
    [(exit_price - entry_price) * quantity], adds it to [daily_pnl], writes
    exactly one trade record with the given reason (to the log and to
    [last_trade]) and clears the position; the trade count is not touched.
    Entry 100, exit 103, quantity 10 realise 30. *)
Theorem close_position_realizes_pnl :
  forall (w : World) (now : datetime) (reason : string)
         (pos : Position) (exit_price : Q),
    position (strat w) = Some pos ->
    current_price (strat w) = Some exit_price ->
    let pnl := (exit_price - entry_price pos) * inject_Z (quantity pos) in
    exists (w' : World) (d : TradeDetails),
      close_position now reason w = (Return tt, w') /\
      td_pnl d = pnl /\
      td_reason d = reason /\
      td_entry_price d = entry_price pos /\
      td_exit_price d = exit_price /\
      td_quantity d = quantity pos /\
      daily_pnl (strat w') = daily_pnl (strat w) + pnl /\
      log w' = log w ++ [d] /\
      last_trade (strat w') = Some d /\
      position (strat w') = None /\
      trades_today (strat w') = trades_today (strat w) /\
      (entry_price pos == 100 -> exit_price == 103 -> quantity pos = 10%Z ->
       td_pnl d == 30).
Proof.
  intros w now reason pos exit_price Hp Hc pnl.
  exists (closed_world w now reason pos exit_price),
         (closing_details (strat w) now reason pos exit_price).
  split.
  - apply close_position_open; assumption.
  - do 10 (split; [reflexivity|]).
    intros He Hx Hq. cbn [td_pnl closing_details].
    rewrite He, Hx, Hq. reflexivity.
Qed.

Lemma close_position_realizes_pnl_witness :
  exists (w' : World) (d : TradeDetails),
    close_position (Scenario.noon 1) "target"
      (Scenario.world_of
         (Scenario.holding Scenario.paper_ib (Scenario.long 100 10 98 103) 103))
      = (Return tt, w') /\
    td_pnl d = 30 /\ td_reason d = "target"%string /\
    daily_pnl (strat w') = 0 + 30 /\
    log w' = [d] /\ position (strat w') = None.
Proof.
  destruct (@close_position_realizes_pnl
              (Scenario.world_of
                 (Scenario.holding Scenario.paper_ib (Scenario.long 100 10 98 103) 103))
              (Scenario.noon 1) "target"%string
              (Scenario.long 100 10 98 103) 103
              eq_refl eq_refl)
    as (w' & d & H & Hpnl & Hr & _ & _ & _ & Hd & Hl & _ & Hpos & _ & _).
  exists w', d. repeat split; assumption.
Defined.

(** C9.  With a position open, [manage_position] tests the stop first:
    when the stop is hit the position is closed with reason "stop", also
    when the target is hit as well; otherwise, when the target is hit, it
    is closed with reason "target"; otherwise nothing changes.  Stop 98,
    target 105, price 97 close with reason "stop". *)
Theorem manage_position_stop_first :
  forall (w : World) (now : datetime) (pos : Position) (p : Q),
    position (strat w) = Some pos ->
    current_price (strat w) = Some p ->
    (stop_hit pos p ->
     manage_position now w = (Return tt, closed_world w now "stop" pos p)) /\
    (~ stop_hit pos p -> target_hit pos p ->
     manage_position now w = (Return tt, closed_world w now "target" pos p)) /\
    (~ stop_hit pos p -> ~ target_hit pos p ->
     manage_position now w = (Return tt, w)) /\
    (stop_price pos = Fin 98 ->
     (exists tp, target_price pos = Fin tp /\ tp == 105) -> p == 97 ->
     exists w' d,
       manage_position now w = (Return tt, w') /\
       position (strat w') = None /\
       last_trade (strat w') = Some d /\ td_reason d = "stop"%string).
Proof.
  intros w now pos p Hp Hc.
  pose proof (manage_position_open w now Hp Hc) as Hm.
  assert (Hstop : stop_hit pos p ->
            manage_position now w
              = (Return tt, closed_world w now "stop" pos p)).
  { intros Hs. apply stop_hit_iff in Hs. rewrite Hm, Hs.
    apply close_position_open; assumption. }
  split; [|split; [|split]].
  - exact Hstop.
  - intros Hs Ht. apply target_hit_iff in Ht.
    destruct (fle (Fin p) (stop_price pos)) eqn:E.
    + exfalso. apply Hs. apply stop_hit_iff. exact E.
    + rewrite Hm, Ht. apply close_position_open; assumption.
  - intros Hs Ht.
    destruct (fle (Fin p) (stop_price pos)) eqn:E.
    + exfalso. apply Hs. apply stop_hit_iff. exact E.
    + destruct (fle (target_price pos) (Fin p)) eqn:E'.
      * exfalso. apply Ht. apply target_hit_iff. exact E'.
      * rewrite Hm. reflexivity.
  - intros Hsp _ Hpe.
    exists (closed_world w now "stop" pos p),
           (closing_details (strat w) now "stop" pos p).
    split.
    + apply Hstop. unfold stop_hit. rewrite Hsp, Hpe. discriminate.
    + split; [reflexivity|]. split; reflexivity.
Qed.

Lemma manage_position_stop_first_witness :
  manage_position (Scenario.noon 1)
    (Scenario.world_of (Scenario.holding Scenario.paper_ib (Scenario.long 100 10 98 105) 97))
  = (Return tt,
     closed_world
       (Scenario.world_of (Scenario.holding Scenario.paper_ib (Scenario.long 100 10 98 105) 97))
       (Scenario.noon 1) "stop" (Scenario.long 100 10 98 105) 97).
Proof.
  apply (@manage_position_stop_first
           (Scenario.world_of
              (Scenario.holding Scenario.paper_ib (Scenario.long 100 10 98 105) 97))
           (Scenario.noon 1) (Scenario.long 100 10 98 105) 97
           eq_refl eq_refl).
  discriminate.
Defined.

(** A price that breaches both levels at once (a target below the stop)
    still leaves with reason "stop". *)
Example manage_position_both_hit :
  fst (manage_position (Scenario.noon 1)
         (Scenario.world_of
            (Scenario.holding Scenario.paper_ib (Scenario.long 100 10 98 96) 97)))
    = Return tt /\
  option_map td_reason
    (last_trade
       (strat
          (snd (manage_position (Scenario.noon 1)
                  (Scenario.world_of
                     (Scenario.holding Scenario.paper_ib (Scenario.long 100 10 98 96) 97))))))
    = Some "stop"%string.
Proof. split; reflexivity. Qed.

(** ** The rolling window *)

(** The window never exceeds the largest of the three periods the engine
    looks at, plus 20. *)
Lemma window_cap_three_periods (lib : TaLib) (bar : Bar) (s : RangeStrategy) :
  (List.length (historical_data (snd (update_market_data lib bar s)))
   <= max_period (config s) + 20)%nat.
Proof.
  destruct (update_market_data_frame lib bar s)
    as (_ & _ & _ & _ & Hh & _).
  rewrite Hh. apply tail_length.
Qed.

(** C6.  After every [update_market_data], also one that raises, the
    window holds at most
    [max(adx_period, bollinger_ma_period, rsi_period, atr_period) + 20]
    rows. *)
Theorem window_cap_four_periods :
  forall (lib : TaLib) (bar : Bar) (s : RangeStrategy),
    (List.length (historical_data (snd (update_market_data lib bar s)))
     <= Nat.max (adx_period (config s))
          (Nat.max (bollinger_ma_period (config s))
             (Nat.max (rsi_period (config s)) (atr_period (config s))))
        + 20)%nat.
Proof.
  intros lib bar s.
  pose proof (window_cap_three_periods lib bar s) as H.
  unfold max_period in H. lia.
Qed.

(** The window is filled up to the cap and then slides: with the default
    periods 45 bars leave 40 rows. *)
Example window_slides :
  List.length
    (historical_data
       (feed Scenario.quiet_lib
          (map (fun t => Scenario.bar_at (Z.of_nat t) 50) (seq 1 45))
          (__init__ Scenario.paper_ib "AAPL" None)))
  = 40%nat.
Proof. vm_compute. reflexivity. Qed.

(** The ATR period plays no part in the cap: with an ATR period of 100
    and the other periods at their defaults, 45 bars still leave 40 rows. *)
Example window_cap_ignores_atr_period :
  List.length
    (historical_data
       (feed Scenario.quiet_lib
          (map (fun t => Scenario.bar_at (Z.of_nat t) 50) (seq 1 45))
          (__init__ Scenario.paper_ib "AAPL"
                    (Some (Scenario.only_atr_period 100)))))
  = 40%nat.
Proof. vm_compute. reflexivity. Qed.

(** C5 (as the code has it).  [update_market_data] never looks at the
    timestamp: every bar becomes the last row of the window, which keeps
    the latest [max(adx_period, bollinger_ma_period, rsi_period) + 20] rows,
    and its close becomes the current price.  While the window is shorter
    than [max(adx_period, bollinger_ma_period, rsi_period)] the indicators
    are left as they are.  From then on ADX, the three bands, RSI and ATR
    are recomputed, in this order, by TA-Lib over the window, this bar
    included, and stored as Series; a TA-Lib call that raises ends the
    update with its exception, the results before it stored and the
    indicators after it as they were. *)
Theorem update_market_data_keeps_every_bar :
  forall (lib : TaLib) (bar : Bar) (s : RangeStrategy),
    let r := update_market_data lib bar s in
    let s' := snd r in
    let cfg := config s in
    let h := column high (historical_data s') in
    let l := column low (historical_data s') in
    let c := column close (historical_data s') in
    let dev := bollinger_std_dev cfg in
    historical_data s'
      = Py.tail (max_period cfg + 20) (historical_data s ++ [new_row bar]) /\
    last_error (historical_data s') = Some (new_row bar) /\
    (forall r0, last_error (historical_data s) = Some r0 ->
                (bar_time bar <= timestamp r0)%Z ->
                last_error (historical_data s') = Some (new_row bar)) /\
    current_price s' = Some (bar_close bar) /\
    ((List.length (historical_data s') < max_period cfg)%nat ->
     fst r = Return tt /\
     adx s' = adx s /\ bollinger s' = bollinger s /\
     rsi s' = rsi s /\ atr s' = atr s) /\
    ((max_period cfg <= List.length (historical_data s'))%nat ->
     (forall e,
        ADX lib h l c (adx_period cfg) = Raise e ->
        fst r = Raise e /\
        adx s' = adx s /\ bollinger s' = bollinger s /\
        rsi s' = rsi s /\ atr s' = atr s) /\
     (forall a,
        ADX lib h l c (adx_period cfg) = Return a ->
        adx s' = Some (PdSeries a) /\
        (forall e,
           BBANDS lib c (bollinger_ma_period cfg) dev dev 0 = Raise e ->
           fst r = Raise e /\
           bollinger s' = bollinger s /\ rsi s' = rsi s /\ atr s' = atr s) /\
        (forall up mid lo,
           BBANDS lib c (bollinger_ma_period cfg) dev dev 0
             = Return (up, mid, lo) ->
           bollinger s'
             = Some {| upper := PdSeries up; middle := PdSeries mid;
                       lower := PdSeries lo |} /\
           (forall e,
              RSI lib c (rsi_period cfg) = Raise e ->
              fst r = Raise e /\ rsi s' = rsi s /\ atr s' = atr s) /\
           (forall x,
              RSI lib c (rsi_period cfg) = Return x ->
              rsi s' = Some (PdSeries x) /\
              (forall e,
                 ATR lib h l c (atr_period cfg) = Raise e ->
                 fst r = Raise e /\ atr s' = atr s) /\
              (forall v,
                 ATR lib h l c (atr_period cfg) = Return v ->
                 fst r = Return tt /\ atr s' = Some (PdSeries v)))))).
Proof.
  intros lib bar s r s' cfg h l c dev.
  destruct (update_market_data_frame lib bar s)
    as (_ & _ & _ & _ & Hh & Hc & _).
  fold r s' cfg in Hh, Hc.
  assert (Hlast : last_error (historical_data s') = Some (new_row bar)).
  { rewrite Hh. apply last_error_tail_app. }
  split; [exact Hh|]. split; [exact Hlast|].
  split; [intros r0 _ _; exact Hlast|]. split; [exact Hc|].
  subst h l c. rewrite Hh. clear Hh Hc Hlast. subst s' r.
  rewrite update_market_data_unfold. fold cfg.
  unfold calculate_indicators. cbn [historical_data config]. fold cfg dev.
  split.
  - intros Hlen. apply Nat.ltb_lt in Hlen. rewrite Hlen.
    repeat split.
  - intros Hlen. apply Nat.ltb_ge in Hlen. rewrite Hlen.
    destruct (ADX lib _ _ _ _) as [a|e1];
      [destruct (BBANDS lib _ _ _ _ _) as [[[up mid] lo]|e2];
       [destruct (RSI lib _ _) as [x|e3];
        [destruct (ATR lib _ _ _ _) as [v|e4]|]|]|];
      cbn [fst snd adx bollinger rsi atr set_adx set_bollinger set_rsi
           set_atr];
      repeat match goal with
             | |- _ /\ _ => split
             | |- forall _, _ => intro
             | H : Return _ = Return _ |- _ => inversion H; subst; clear H
             | H : Raise _ = Raise _ |- _ => inversion H; subst; clear H
             | H : Return _ = Raise _ |- _ => discriminate H
             | H : Raise _ = Return _ |- _ => discriminate H
             end;
      reflexivity.
Qed.

(** C5, refuted as stated: a bar stamped 1000 that arrives after a bar
    stamped 2000 is appended and sets the current price; and a stale bar
    that completes a window of 20 rows triggers the recomputation of the
    indicators over all 20 rows. *)
Lemma stale_bar_is_appended :
  let s1 := snd (update_market_data Scenario.quiet_lib
                   (Scenario.bar_at 2000 50)
                   (__init__ Scenario.paper_ib "AAPL" None)) in
  let s2 := snd (update_market_data Scenario.quiet_lib
                   (Scenario.bar_at 1000 49) s1) in
  let s19 := feed Scenario.quiet_lib
               (map (fun t => Scenario.bar_at (Z.of_nat t) 50) (seq 1 19))
               (__init__ Scenario.paper_ib "AAPL" None) in
  let s20 := snd (update_market_data Scenario.quiet_lib
                    (Scenario.bar_at 0 49) s19) in
  map timestamp (historical_data s1) = [2000%Z] /\
  map timestamp (historical_data s2) = [2000%Z; 1000%Z] /\
  current_price s2 = Some 49 /\
  adx s19 = None /\
  last_error (map timestamp (historical_data s20)) = Some 0%Z /\
  current_price s20 = Some 49 /\
  List.length (historical_data s20) = 20%nat /\
  exists a, adx s20 = Some (PdSeries a) /\ List.length a = 20%nat.
Proof.
  vm_compute. do 7 (split; [reflexivity|]).
  eexists. split; reflexivity.
Qed.

(** ** Before the window is long enough *)

(** An update that leaves the window shorter than the largest period
    only appends the row and sets the price. *)
Lemma update_market_data_short (lib : TaLib) (bar : Bar) (s : RangeStrategy) :
  (List.length (historical_data s) + 1 < max_period (config s))%nat ->
  update_market_data lib bar s = (Return tt,
    {| ib := ib s; symbol := symbol s; config := config s;
       position := position s;
       historical_data := historical_data s ++ [new_row bar];
       current_price := Some (bar_close bar);
       latest_empty := latest_empty s;
       adx := adx s; bollinger := bollinger s; rsi := rsi s; atr := atr s;
       trades_today := trades_today s;
       daily_pnl := daily_pnl s;
       last_trade := last_trade s |}).
Proof.
  intros Hlen. rewrite update_market_data_unfold.
  rewrite tail_short by (rewrite length_app; simpl; lia).
  apply calculate_indicators_short.
  cbn [historical_data config]. rewrite length_app. simpl. lia.
Qed.

(** C2, on the code.  While the window is shorter than
    [max(adx_period, bollinger_ma_period, rsi_period)] an update leaves the
    four indicators as they were, so None on an object that has not computed
    them yet; [evaluate_entry] on such an object with no position does not
    return False: it raises TypeError. *)
Theorem evaluate_entry_raises_before_warmup :
  forall (lib : TaLib) (bar : Bar) (s : RangeStrategy) (now : datetime),
    adx s = None -> bollinger s = None -> rsi s = None -> atr s = None ->
    position s = None ->
    (List.length (historical_data s) + 1 < max_period (config s))%nat ->
    let s' := snd (update_market_data lib bar s) in
    fst (update_market_data lib bar s) = Return tt /\
    adx s' = None /\ bollinger s' = None /\ rsi s' = None /\ atr s' = None /\
    evaluate_entry s' now = Raise TypeError.
Proof.
  intros lib bar s now Ha Hb Hr Hv Hp Hlen s'.
  subst s'. rewrite (update_market_data_short lib bar s Hlen).
  cbn [fst snd adx bollinger rsi atr].
  split; [reflexivity|].
  do 4 (split; [assumption|]).
  unfold evaluate_entry. cbn [position adx]. rewrite Hp, Ha. reflexivity.
Qed.

Lemma evaluate_entry_raises_before_warmup_witness :
  evaluate_entry
    (snd (update_market_data Scenario.quiet_lib (Scenario.bar_at 1000 49)
            (__init__ Scenario.paper_ib "AAPL" None)))
    (Scenario.noon 0)
  = Raise TypeError.
Proof.
  apply (@evaluate_entry_raises_before_warmup
           Scenario.quiet_lib (Scenario.bar_at 1000 49)
           (__init__ Scenario.paper_ib "AAPL" None) (Scenario.noon 0)
           eq_refl eq_refl eq_refl eq_refl eq_refl).
  vm_compute. repeat constructor.
Defined.

(** ** Position sizing *)


(** What [update_market_data] stores once the window is long enough and
    TA-Lib has returned four times. *)
Lemma update_market_data_stores_series (lib : TaLib) (bar : Bar)
  (s : RangeStrategy) :
  (max_period (config s) <= List.length (historical_data s) + 1)%nat ->
  fst (update_market_data lib bar s) = Return tt ->
  let s' := snd (update_market_data lib bar s) in
  exists a up mid lo x v,
    adx s' = Some (PdSeries a) /\
    bollinger s' = Some {| upper := PdSeries up; middle := PdSeries mid;
                           lower := PdSeries lo |} /\
    rsi s' = Some (PdSeries x) /\
    atr s' = Some (PdSeries v).
Proof.
  intros Hlen. rewrite update_market_data_unfold.
  unfold calculate_indicators. cbn [historical_data config].
  assert (E : (List.length
                 (Py.tail (max_period (config s) + 20)
                          (historical_data s ++ [new_row bar]))
               <? max_period (config s))%nat = false).
  { apply Nat.ltb_ge. unfold Py.tail.
    rewrite length_skipn, length_app. cbn [List.length]. lia. }
  rewrite E.
  destruct (ADX lib _ _ _ _) as [a|e1]; [|discriminate].
  destruct (BBANDS lib _ _ _ _ _) as [[[up mid] lo]|e2]; [|discriminate].
  destruct (RSI lib _ _) as [x|e3]; [|discriminate].
  destruct (ATR lib _ _ _ _) as [v|e4]; [|discriminate].
  intros _. exists a, up, mid, lo, x, v. repeat split.
Qed.

(** C7, on the code.  Once [update_market_data] has computed the
    indicators, [self.atr] is a Series on the index of the window, and
    [calculate_position_size] computes no size: whatever the equity, the
    configuration and the values of the ATR are, [self.atr[-1]] raises
    KeyError.  So it does with equity 100000, risk 0.01, multiplier 1.5 and
    an ATR of 2, where the formula gives 333. *)
Theorem position_size_raises_on_stored_atr :
  forall (lib : TaLib) (bar : Bar) (s : RangeStrategy) (price : option Q)
         (equity : Q) (rest : list Q),
    accountSummary (ib s) = equity :: rest ->
    (max_period (config s) <= List.length (historical_data s) + 1)%nat ->
    fst (update_market_data lib bar s) = Return tt ->
    let s' := snd (update_market_data lib bar s) in
    (exists v, atr s' = Some (PdSeries v)) /\
    calculate_position_size s' price = Raise KeyError.
Proof.
  intros lib bar s price equity rest He Hlen Hret s'.
  destruct (update_market_data_stores_series lib bar s Hlen Hret)
    as (a & up & mid & lo & x & v & _ & _ & _ & Hv).
  fold s' in Hv.
  split; [exists v; exact Hv|].
  unfold calculate_position_size.
  destruct (update_market_data_frame lib bar s) as (Hib & _).
  fold s' in Hib. rewrite Hib, He, Hv. reflexivity.
Qed.

Lemma position_size_raises_on_stored_atr_witness :
  let s19 := feed Scenario.quiet_lib
               (map (fun k => Scenario.range_bar (Scenario.minute (Z.of_nat k)))
                    (seq 1 19))
               (__init__ Scenario.paper_ib "AAPL" None) in
  let s20 := snd (update_market_data Scenario.quiet_lib
                    (Scenario.range_bar (Scenario.minute 20)) s19) in
  accountSummary (ib s20) = [100000] /\
  risk_per_trade_pct (config s20) = 1 # 100 /\
  stop_loss_atr_multiplier (config s20) = 3 # 2 /\
  (exists v, atr s20 = Some (PdSeries v) /\ last_error v = Some (Fin 2)) /\
  calculate_position_size s20 (Some 49) = Raise KeyError.
Proof.
  intros s19 s20.
  assert (Hlen : (max_period (config s19)
                  <= List.length (historical_data s19) + 1)%nat).
  { vm_compute. repeat constructor. }
  destruct (@position_size_raises_on_stored_atr
              Scenario.quiet_lib (Scenario.range_bar (Scenario.minute 20))
              s19 (Some 49) 100000 [] eq_refl Hlen eq_refl) as [_ H].
  split; [reflexivity|]. split; [reflexivity|]. split; [reflexivity|].
  split; [|exact H].
  eexists. split; vm_compute; reflexivity.
Defined.

(** On an ATR assigned as a list the values of the specification do give
    333 shares, from a risk amount of 1000 and a stop distance of 3. *)
Example position_size_on_a_list :
  risk_amount defaults 100000 = Fin 1000 /\
  stop_distance defaults (Fin 2) = Fin 3 /\
  calculate_position_size (Scenario.eligible Scenario.paper_ib 0) (Some 49)
    = Return 333%Z.
Proof. vm_compute. repeat split. Qed.

(** The size is the floor of the rounded quotient, not of the exact one:
    with an ATR of 0.1 and a multiplier of 1 the stop distance is the double
    next to 0.1, which is above 0.1; 1000 divided by it is below 10000 and
    rounds to 10000.0. *)
Example position_size_floors_the_rounded_quotient :
  let c := Scenario.with_multiplier 1 in
  let s := Scenario.engine Scenario.paper_ib c
             (Fin 15) (Fin 50) (Fin 25) (Fin (1 # 10)) 49 0 in
  exists sd,
    stop_distance c (Fin (1 # 10)) = Fin sd /\
    Qfloor (1000 / sd) = 9999%Z /\
    calculate_position_size s (Some 49) = Return 10000%Z.
Proof. eexists. vm_compute. repeat split. Qed.

(** A volatility of exactly zero: the division is attempted and the call
    raises.  So it does with a volatility above zero, the smallest double,
    and a multiplier of 0.25: their product rounds to zero. *)
Example zero_volatility_raises :
  calculate_position_size
    (Scenario.engine Scenario.paper_ib defaults
                     (Fin 15) (Fin 50) (Fin 25) (Fin 0) 49 0)
    (Some 49)
  = Raise ZeroDivisionError /\
  float (1 # 2 ^ 1074) = Fin (1 # 2 ^ 1074) /\
  stop_distance (Scenario.with_multiplier (1 # 4)) (Fin (1 # 2 ^ 1074))
    = Fin 0 /\
  calculate_position_size
    (Scenario.engine Scenario.paper_ib (Scenario.with_multiplier (1 # 4))
                     (Fin 15) (Fin 50) (Fin 25)
                     (Fin (1 # 2 ^ 1074)) 49 0)
    (Some 49)
  = Raise ZeroDivisionError.
Proof. vm_compute. repeat split. Qed.

(** ** Entering a position *)

Lemma execute_trade_unfold (w : World) (now filled : datetime) :
  execute_trade now filled w =
    match evaluate_entry (strat w) now with
    | Raise e => (Raise e, w)
    | Return false => (Return tt, w)
    | Return true =>
        match calculate_position_size (strat w) (current_price (strat w)) with
        | Raise e => (Raise e, w)
        | Return q =>
            if (q <=? 0)%Z then (Return tt, w)
            else
              match item_last (atr (strat w)) with
              | Raise e => (Raise e, w)
              | Return v =>
                  match number (current_price (strat w)) with
                  | Raise e => (Raise e, w)
                  | Return p =>
                      submit_bracket w
                        (entered_position (config (strat w)) p v q filled)
                  end
              end
        end
    end.
Proof.
  unfold execute_trade, mbind, self, lift. cbv beta iota.
  destruct (evaluate_entry (strat w) now) as [[|]|e]; try reflexivity.
  cbv beta iota delta [negb].
  destruct (calculate_position_size (strat w) (current_price (strat w)))
    as [q|e]; try reflexivity.
  destruct (q <=? 0)%Z; try reflexivity.
  destruct (item_last (atr (strat w))) as [v|e]; try reflexivity.
  destruct (number (current_price (strat w))) as [p|e]; try reflexivity.
  unfold submit_bracket, ib_placeOrder, assign, ret, entered_world,
    with_orders.
  cbv beta iota zeta delta
    [quantity target_price stop_price entered_position
     parent_order take_profit_order stop_loss_order].
  cbn [strat orders log].
  repeat match goal with
         | |- context [match placeOrder ?g ?os ?o with _ => _ end] =>
             destruct (placeOrder g os o); cbn [strat orders log]
         end; reflexivity.
Qed.






Lemma close_position_cases (w : World) (now : datetime) (reason : string) :
  close_position now reason w =
    match position (strat w) with
    | None => (Return tt, w)
    | Some pos =>
        match current_price (strat w) with
        | None => (Raise TypeError, w)
        | Some p => (Return tt, closed_world w now reason pos p)
        end
    end.
Proof.
  destruct (position (strat w)) as [pos|] eqn:Hp.
  - destruct (current_price (strat w)) as [p|] eqn:Hc.
    + apply close_position_open; assumption.
    + unfold close_position, mbind, self. cbv beta iota.
      rewrite Hp. unfold lift. rewrite Hc. reflexivity.
  - unfold close_position, mbind, self. cbv beta iota.
    rewrite Hp. reflexivity.
Qed.

Lemma manage_position_cases (w : World) (now : datetime) :
  manage_position now w =
    match position (strat w) with
    | None => (Return tt, w)
    | Some pos =>
        match current_price (strat w) with
        | None => (Raise TypeError, w)
        | Some p =>
            if fle (Fin p) (stop_price pos)
            then (Return tt, closed_world w now "stop" pos p)
            else if fle (target_price pos) (Fin p)
            then (Return tt, closed_world w now "target" pos p)
            else (Return tt, w)
        end
    end.
Proof.
  destruct (position (strat w)) as [pos|] eqn:Hp.
  - destruct (current_price (strat w)) as [p|] eqn:Hc.
    + rewrite (manage_position_open w now Hp Hc).
      rewrite !(close_position_open w now _ Hp Hc). reflexivity.
    + unfold manage_position, mbind, self. cbv beta iota.
      rewrite Hp. unfold lift. rewrite Hc. reflexivity.
  - unfold manage_position, mbind, self. cbv beta iota.
    rewrite Hp. reflexivity.
Qed.

(** Neither way of closing talks to the broker. *)
Lemma closing_sends_no_order (w : World) (now : datetime) (reason : string) :
  orders (snd (close_position now reason w)) = orders w /\
  orders (snd (manage_position now w)) = orders w.
Proof.
  rewrite close_position_cases, manage_position_cases.
  destruct (position (strat w)) as [pos|]; [|split; reflexivity].
  destruct (current_price (strat w)) as [p|]; [|split; reflexivity].
  split; [reflexivity|].
  destruct (fle (Fin p) (stop_price pos)); [reflexivity|].
  destruct (fle (target_price pos) (Fin p)); reflexivity.
Qed.



(** With the session down the first [placeOrder] raises: the exception
    comes out of [execute_trade] and nothing was recorded. *)
Example offline_entry_raises :
  let w := Scenario.world_of (Scenario.eligible Scenario.offline_ib 0) in
  execute_trade (Scenario.noon 0) (Scenario.noon 0) w
    = (Raise ConnectionError, w).
Proof. vm_compute. reflexivity. Qed.

(** With no position and an ADX left by the engine's own code,
    [evaluate_entry] raises at [self.adx[-1]]: TypeError on None, KeyError
    on a Series. *)
Lemma evaluate_entry_own_adx (s : RangeStrategy) (now : datetime) :
  position s = None -> own_indicator (adx s) ->
  evaluate_entry s now = Raise TypeError \/
  evaluate_entry s now = Raise KeyError.
Proof.
  intros Hp [Ha | [l Ha]]; unfold evaluate_entry; rewrite Hp, Ha;
    [left | right]; reflexivity.
Qed.

(** After twenty bars the indicators are Series and the entry is not
    reached: [evaluate_entry] raises KeyError at [self.adx[-1]], and so does
    [execute_trade]. *)
Example entry_after_warm_up_raises :
  let w := calls Scenario.quiet_lib Scenario.warm_up
             (Scenario.fresh_world Scenario.paper_ib) in
  evaluate_entry (strat w) (Scenario.minute 21) = Raise KeyError /\
  execute_trade (Scenario.minute 21) (Scenario.minute 21) w
    = (Raise KeyError, w).
Proof. vm_compute. split; reflexivity. Qed.


(** ** The daily counters over any sequence of calls *)












(** * Further properties of the engine *)

(** ** When an entry is allowed *)

Lemma fgt_false_iff (a : pyfloat) (limit : Q) :
  fgt a (Fin limit) = false <-> not_above a limit.
Proof.
  unfold not_above. destruct a as [x| | |]; cbn [fgt].
  - rewrite negb_false_iff. apply Qle_bool_iff.
  - split; [discriminate | contradiction].
  - split; [intros _; exact I | reflexivity].
  - split; [intros _; exact I | reflexivity].
Qed.

Lemma fle_true_iff (p : Q) (b : pyfloat) :
  fle (Fin p) b = true <-> at_or_below p b.
Proof.
  unfold at_or_below. destruct b as [lo| | |]; cbn [fle].
  - apply Qle_bool_iff.
  - split; [intros _; exact I | reflexivity].
  - split; [discriminate | contradiction].
  - split; [discriminate | contradiction].
Qed.

Lemma evaluate_entry_true_inv (s : RangeStrategy) (now : datetime) :
  evaluate_entry s now = Return true -> entry_conditions s now.
Proof.
  unfold evaluate_entry, entry_conditions.
  destruct (position s); [discriminate|]. cbn [truthy].
  destruct (item_last (adx s)) as [a|e]; [|discriminate]. cbn [Py.bind].
  destruct (fgt a _) eqn:Ea; [discriminate|].
  destruct (lower_last (bollinger s)) as [lo|e]; [|discriminate].
  cbn [Py.bind].
  destruct (current_price s) as [p|]; [|discriminate]. cbn [number Py.bind].
  destruct (fle (Fin p) lo) eqn:Elo; [|discriminate]. cbn [negb].
  destruct (item_last (rsi s)) as [r|e]; [|discriminate]. cbn [Py.bind].
  destruct (fgt r _) eqn:Er; [discriminate|].
  destruct (_ && _) eqn:Et; [|discriminate]. cbn [negb].
  destruct (trades_today s >=? max_trades_per_day (config s))%Z eqn:En;
    [discriminate|].
  destruct (Qle_bool (daily_pnl s) _) eqn:Ed; [discriminate|].
  intros _. split; [reflexivity|].
  apply fle_true_iff in Elo.
  exists a, r, lo, p.
  apply andb_true_iff in Et. destruct Et as [Et1 Et2].
  apply Z.leb_le in Et1, Et2.
  rewrite Z.geb_leb in En. apply Z.leb_gt in En.
  apply Qle_bool_false in Ed. apply Qnot_le_lt in Ed.
  do 4 (split; [reflexivity|]).
  split; [apply fgt_false_iff; exact Ea|]. split; [exact Elo|].
  split; [apply fgt_false_iff; exact Er|].
  split; [split; assumption|]. split; assumption.
Qed.

Lemma evaluate_entry_true_intro (s : RangeStrategy) (now : datetime) :
  entry_conditions s now -> evaluate_entry s now = Return true.
Proof.
  intros (Hp & a & r & lo & p & Ha & Hlo & Hc & Hr & Hna & Hple & Hnr
          & [Ht1 Ht2] & Hn & Hd).
  unfold evaluate_entry. rewrite Hp, Ha, Hlo, Hc, Hr.
  cbn [truthy Py.bind number].
  apply fgt_false_iff in Hna, Hnr. rewrite Hna, Hnr.
  apply fle_true_iff in Hple. rewrite Hple. cbn [negb].
  apply Z.leb_le in Ht1, Ht2. rewrite Ht1, Ht2. cbn [andb negb].
  assert (En : (trades_today s >=? max_trades_per_day (config s))%Z = false).
  { rewrite Z.geb_leb. apply Z.leb_gt. exact Hn. }
  rewrite En.
  assert (Ed : Qle_bool (daily_pnl s) (- daily_loss_limit_pct (config s))
               = false).
  { apply Qle_bool_false. apply Qlt_not_le. exact Hd. }
  rewrite Ed. reflexivity.
Qed.

(** X1.  [evaluate_entry] returns True exactly when no position is held,
    the last ADX, lower-band and RSI values can be read with [[-1]] and
    there is a current price, ADX and RSI do not compare as greater than
    their limits, the price compares as at or below the lower band, the
    clock is inside the session (both ends included), the trade count is
    below the limit and the daily P&L is above minus the loss limit.  On
    the Series stored by [calculate_indicators] the readings do not exist:
    there it never returns True. *)
Theorem evaluate_entry_true_iff :
  forall (s : RangeStrategy) (now : datetime),
    (evaluate_entry s now = Return true <-> entry_conditions s now) /\
    (forall l, adx s = Some (PdSeries l) ->
               evaluate_entry s now <> Return true).
Proof.
  intros s now. split; [split|].
  - apply evaluate_entry_true_inv.
  - apply evaluate_entry_true_intro.
  - intros l Hl H. apply evaluate_entry_true_inv in H.
    destruct H as (_ & a & r & lo & p & Ha & _).
    rewrite Hl in Ha. discriminate.
Qed.

(** ** The daily loss limit *)

Lemma loss_limit_step (lib : TaLib) (c : Call) (w : World) :
  position (strat w) = None ->
  daily_pnl (strat w) <= - daily_loss_limit_pct (config (strat w)) ->
  let w' := call lib c w in
  position (strat w') = None /\
  daily_pnl (strat w') = daily_pnl (strat w) /\
  config (strat w') = config (strat w) /\
  trades_today (strat w') = trades_today (strat w) /\
  orders w' = orders w /\ log w' = log w.
Proof.
  intros Hp Hd.
  destruct c as [bar | now filled | now | now reason]; cbn [call].
  - destruct (update_market_data_frame lib bar (strat w))
      as (_ & _ & Hc & Hpos & _ & _ & Ht & Hpnl & _).
    cbn [strat orders log]. rewrite Hpos.
    repeat split; first [assumption | reflexivity].
  - rewrite execute_trade_unfold.
    destruct (evaluate_entry (strat w) now) as [[|]|e] eqn:E;
      try (cbn [snd]; repeat split; first [assumption | reflexivity]).
    apply evaluate_entry_true_inv in E.
    destruct E as (_ & a & r & lo & p & _ & _ & _ & _ & _ & _ & _ & _ & _ & H).
    exfalso. exact (Qlt_not_le _ _ H Hd).
  - rewrite manage_position_cases, Hp. cbn [snd].
    repeat split; first [assumption | reflexivity].
  - rewrite close_position_cases, Hp. cbn [snd].
    repeat split; first [assumption | reflexivity].
Qed.

(** X2.  Once the object is flat with a daily P&L at or below minus
    [daily_loss_limit_pct], no sequence of calls changes that: no position
    is opened, no order sent, nothing logged, the P&L and the trade count
    stay as they are, and [evaluate_entry] never returns True again. *)
Theorem loss_limit_latches :
  forall (lib : TaLib) (cs : list Call) (w : World) (now : datetime),
    position (strat w) = None ->
    daily_pnl (strat w) <= - daily_loss_limit_pct (config (strat w)) ->
    let w' := calls lib cs w in
    position (strat w') = None /\
    daily_pnl (strat w') = daily_pnl (strat w) /\
    trades_today (strat w') = trades_today (strat w) /\
    orders w' = orders w /\ log w' = log w /\
    evaluate_entry (strat w') now <> Return true.
Proof.
  intros lib cs w now Hp Hd w'.
  assert (H : position (strat w') = None /\
              daily_pnl (strat w') = daily_pnl (strat w) /\
              config (strat w') = config (strat w) /\
              trades_today (strat w') = trades_today (strat w) /\
              orders w' = orders w /\ log w' = log w).
  { subst w'. revert w Hp Hd. induction cs as [|c cs IH]; intros w Hp Hd.
    - unfold calls. cbn [fold_left].
      repeat split; first [assumption | reflexivity].
    - cbn [calls fold_left].
      destruct (loss_limit_step lib c w Hp Hd)
        as (Hp1 & Hd1 & Hc1 & Ht1 & Ho1 & Hl1).
      assert (Hd' : daily_pnl (strat (call lib c w))
                    <= - daily_loss_limit_pct (config (strat (call lib c w)))).
      { rewrite Hd1, Hc1. exact Hd. }
      destruct (IH (call lib c w) Hp1 Hd') as (Hp2 & Hd2 & Hc2 & Ht2 & Ho2 & Hl2).
      unfold calls in *.
      repeat split; congruence. }
  destruct H as (Hp' & Hd' & Hc' & Ht' & Ho' & Hl').
  repeat (split; [assumption|]).
  intro E. apply evaluate_entry_true_inv in E.
  destruct E as (_ & a & r & lo & p & _ & _ & _ & _ & _ & _ & _ & _ & _ & H).
  rewrite Hd', Hc' in H. exact (Qlt_not_le _ _ H Hd).
Qed.

Lemma loss_limit_latches_witness :
  let s := set_daily_pnl (-1) (Scenario.eligible Scenario.paper_ib 0) in
  let w' := calls Scenario.quiet_lib
              [Call_update_market_data (Scenario.bar_at 1000 49);
               Call_execute_trade (Scenario.noon 0) (Scenario.noon 0)]
              (Scenario.world_of s) in
  position (strat w') = None /\ orders w' = [] /\
  evaluate_entry (strat w') (Scenario.noon 0) <> Return true.
Proof.
  intros s w'.
  assert (Hd : daily_pnl (strat (Scenario.world_of s))
               <= - daily_loss_limit_pct (config (strat (Scenario.world_of s))))
    by discriminate.
  destruct (@loss_limit_latches Scenario.quiet_lib
              [Call_update_market_data (Scenario.bar_at 1000 49);
               Call_execute_trade (Scenario.noon 0) (Scenario.noon 0)]
              (Scenario.world_of s) (Scenario.noon 0) eq_refl Hd)
    as (Hp & _ & _ & Ho & _ & He).
  split; [exact Hp|]. split; [exact Ho | exact He].
Defined.

(** ** What a call of [execute_trade] can do *)

(** A product is a number only if both factors are. *)
Lemma fmul_Fin (a b : pyfloat) (z : Q) :
  fmul a b = Fin z -> exists x y, a = Fin x /\ b = Fin y.
Proof.
  destruct a as [x| | |], b as [y| | |]; cbn [fmul]; unfold scaled;
    try discriminate;
    try (destruct (_ ?= 0); discriminate).
  intros _. exists x, y. split; reflexivity.
Qed.

(** A quotient whose floor is not zero comes from two numbers. *)
Lemma fdiv_floor (a b d : pyfloat) (q : Z) :
  fdiv a b = Return d -> math_floor d = Return q -> q <> 0%Z ->
  exists x y, a = Fin x /\ b = Fin y.
Proof.
  destruct a as [x| | |], b as [y| | |]; cbn [fdiv]; unfold scaled;
    try destruct (Qeq_bool _ 0); try destruct (_ ?= 0); cbn [fneg];
    intros Hd; try discriminate; injection Hd as <-;
    cbn [math_floor]; intros Hm Hq; try discriminate.
  - exists x, y. split; reflexivity.
  - exfalso. injection Hm as <-. apply Hq. reflexivity.
  - exfalso. injection Hm as <-. apply Hq. reflexivity.
Qed.

(** A size other than zero comes from an ATR value that is a number (not
    NaN, not infinite). *)
Lemma calculate_position_size_positive (s : RangeStrategy) (price : option Q)
  (q : Z) :
  calculate_position_size s price = Return q ->
  (1 <= q)%Z ->
  exists vol, item_last (atr s) = Return (Fin vol).
Proof.
  intros H Hq. unfold calculate_position_size in H.
  destruct (accountSummary (ib s)) as [|equity rest]; [discriminate|].
  cbn [Py.bind] in H.
  destruct (item_last (atr s)) as [v|e]; [|discriminate].
  cbn [Py.bind] in H.
  destruct (fdiv _ _) as [d|e] eqn:Hd; [|discriminate].
  cbn [Py.bind] in H.
  assert (Hnz : q <> 0%Z) by lia.
  destruct (fdiv_floor _ _ Hd H Hnz) as (x & y & _ & Hy).
  destruct (fmul_Fin _ _ Hy) as (x' & y' & Hv & _).
  destruct v as [vol| | |]; try discriminate.
  exists vol. reflexivity.
Qed.

(** Either nothing changes, or the entry is allowed, sized at one share or
    more, and the three orders are submitted. *)
Lemma execute_trade_split (w : World) (now filled : datetime) :
  (exists o, execute_trade now filled w = (o, w)) \/
  (exists p v q,
     evaluate_entry (strat w) now = Return true /\
     calculate_position_size (strat w) (current_price (strat w)) = Return q /\
     (1 <= q)%Z /\
     current_price (strat w) = Some p /\
     item_last (atr (strat w)) = Return v /\
     execute_trade now filled w
       = submit_bracket w
           (entered_position (config (strat w)) p v q filled)).
Proof.
  rewrite execute_trade_unfold.
  destruct (evaluate_entry (strat w) now) as [[|]|e] eqn:E;
    [| left; eexists; reflexivity | left; eexists; reflexivity].
  destruct (calculate_position_size _ _) as [q|e] eqn:Eq;
    [| left; eexists; reflexivity].
  destruct (q <=? 0)%Z eqn:El; [left; eexists; reflexivity|].
  destruct (item_last (atr (strat w))) as [v|e] eqn:Ev;
    [| left; eexists; reflexivity].
  destruct (current_price (strat w)) as [p|] eqn:Ep;
    [| left; eexists; reflexivity].
  right. exists p, v, q. cbn [number].
  apply Z.leb_gt in El.
  repeat (split; [first [reflexivity | lia]|]). reflexivity.
Qed.

Lemma submit_bracket_split (w : World) (pos : Position) :
  submit_bracket w pos = (Return tt, entered_world w pos) \/
  exists os,
    submit_bracket w pos
      = (Raise ConnectionError, with_orders w (orders w ++ os)) /\
    (os = [] \/ os = [parent_order pos] \/
     os = [parent_order pos; take_profit_order pos]).
Proof.
  unfold submit_bracket.
  destruct (placeOrder (ib (strat w)) (orders w) (parent_order pos)).
  3: { right. exists []. rewrite app_nil_r. split; [|left; reflexivity].
       destruct w; reflexivity. }
  all: destruct (placeOrder (ib (strat w)) (orders w ++ [parent_order pos])
                   (take_profit_order pos)).
  all: try (right; exists [parent_order pos];
            split; [reflexivity | right; left; reflexivity]).
  all: destruct (placeOrder (ib (strat w))
                   ((orders w ++ [parent_order pos]) ++ [take_profit_order pos])
                   (stop_loss_order pos)).
  all: try (left; reflexivity).
  all: right; exists [parent_order pos; take_profit_order pos];
       rewrite <- app_assoc; split; [reflexivity | right; right; reflexivity].
Qed.

Lemma submit_bracket_answered (w : World) (pos : Position) :
  always_answers (ib (strat w)) ->
  submit_bracket w pos = (Return tt, entered_world w pos).
Proof.
  intros H. unfold submit_bracket.
  pose proof (H (orders w) (parent_order pos)) as H1.
  pose proof (H (orders w ++ [parent_order pos]) (take_profit_order pos))
    as H2.
  pose proof (H ((orders w ++ [parent_order pos]) ++ [take_profit_order pos])
                (stop_loss_order pos)) as H3.
  destruct (placeOrder _ (orders w) _); try congruence;
    destruct (placeOrder _ (orders w ++ [parent_order pos]) _);
    try congruence;
    destruct (placeOrder _ _ (stop_loss_order pos)); congruence.
Qed.

(** X5.  Whenever [execute_trade] turns a flat object into one holding a
    position, that position has at least one share, its entry price is the
    current price and compares as at or below the lower band, the last ATR
    value is a number, its stop is the entry price minus ATR times the
    multiplier and its target the entry price times
    [1 + profit_target_pct], both in double arithmetic; exactly three
    orders of that same quantity were sent (market buy, limit sell at the
    target, stop sell at the stop), one trade was counted, and P&L and log
    are untouched. *)
Theorem execute_trade_entry_facts :
  forall (w w' : World) (now filled : datetime) (pos : Position),
    position (strat w) = None ->
    execute_trade now filled w = (Return tt, w') ->
    position (strat w') = Some pos ->
    (1 <= quantity pos)%Z /\
    entry_time pos = filled /\
    current_price (strat w) = Some (entry_price pos) /\
    target_price pos
      = fmul (float (entry_price pos))
             (fadd (float 1) (float (profit_target_pct (config (strat w))))) /\
    (exists lo, lower_last (bollinger (strat w)) = Return lo /\
                at_or_below (entry_price pos) lo) /\
    (exists vol,
       item_last (atr (strat w)) = Return (Fin vol) /\
       stop_price pos
         = fsub (float (entry_price pos))
                (fmul (float vol)
                      (float (stop_loss_atr_multiplier (config (strat w)))))) /\
    calculate_position_size (strat w) (current_price (strat w))
      = Return (quantity pos) /\
    orders w'
      = orders w ++ [MarketOrder BUY (quantity pos);
                     LimitOrder SELL (quantity pos) (target_price pos);
                     StopOrder SELL (quantity pos) (stop_price pos)] /\
    trades_today (strat w') = (trades_today (strat w) + 1)%Z /\
    daily_pnl (strat w') = daily_pnl (strat w) /\
    log w' = log w.
Proof.
  intros w w' now filled pos Hflat Hex Hpos.
  destruct (execute_trade_split w now filled)
    as [[o Ho] | (p & v & q & Hev & Hsz & Hq & Hp & Hv & Hsub)].
  { rewrite Ho in Hex. injection Hex as _ <-. congruence. }
  rewrite Hsub in Hex.
  destruct (submit_bracket_split w
              (entered_position (config (strat w)) p v q filled))
    as [Hin | (os & Hos & _)]; [|rewrite Hos in Hex; discriminate].
  rewrite Hin in Hex. injection Hex as <-.
  cbn [entered_world strat position set_trades_today set_position] in Hpos.
  injection Hpos as <-.
  destruct (calculate_position_size_positive _ _ Hsz Hq) as (vol & Hvol).
  rewrite Hv in Hvol. injection Hvol as ->.
  apply evaluate_entry_true_inv in Hev.
  destruct Hev as (_ & a & r & lo & p' & _ & Hlo & Hp' & _ & _ & Hle & _).
  rewrite Hp in Hp'. injection Hp' as <-.
  cbn [entered_position entered_world quantity entry_time entry_price
       target_price stop_price strat orders log double
       parent_order take_profit_order stop_loss_order
       set_trades_today set_position trades_today daily_pnl].
  split; [exact Hq|]. split; [reflexivity|]. split; [exact Hp|].
  split; [reflexivity|].
  split; [exists lo; split; assumption|].
  split; [exists vol; split; [exact Hv | reflexivity]|].
  split; [exact Hsz|].
  split; [rewrite <- !app_assoc; reflexivity|].
  repeat split.
Qed.

Lemma execute_trade_entry_facts_witness :
  exists w' pos,
    execute_trade (Scenario.noon 0) (Scenario.noon 0)
      (Scenario.world_of (Scenario.eligible Scenario.paper_ib 0))
      = (Return tt, w') /\
    position (strat w') = Some pos /\
    (1 <= quantity pos)%Z /\
    stop_price pos = Fin 46 /\
    trades_today (strat w') = 1%Z.
Proof.
  eexists. eexists.
  assert (Hex : execute_trade (Scenario.noon 0) (Scenario.noon 0)
                  (Scenario.world_of (Scenario.eligible Scenario.paper_ib 0))
                = (Return tt,
                   entered_world
                     (Scenario.world_of (Scenario.eligible Scenario.paper_ib 0))
                     (entered_position defaults 49 (Fin 2) 333
                        (Scenario.noon 0)))) by (vm_compute; reflexivity).
  destruct (@execute_trade_entry_facts
              (Scenario.world_of (Scenario.eligible Scenario.paper_ib 0))
              _ (Scenario.noon 0) (Scenario.noon 0) _ eq_refl Hex eq_refl)
    as (Hq & _ & _ & _ & _ & _ & _ & _ & Ht & _).
  split; [exact Hex|]. split; [reflexivity|]. split; [exact Hq|].
  split; [vm_compute; reflexivity | exact Ht].
Defined.

(** The order prices of the scenario, as the doubles they are: the stop
    is 46.0 and the target is the double that prints as
    49.73499999999999. *)
Example entry_prices_are_doubles :
  let pos := entered_position defaults 49 (Fin 2) 333 (Scenario.noon 0) in
  stop_price pos = Fin 46 /\
  target_price pos = Fin (6999578983352237 # 140737488355328).
Proof. vm_compute. split; reflexivity. Qed.

(** X6.  A method that raises leaves the object and the log as they were:
    [manage_position] and [close_position] change nothing at all, and
    [execute_trade] can only have handed one or two orders of the bracket
    to the broker. *)
Theorem raising_call_leaves_object_untouched :
  forall (w : World) (now filled : datetime) (reason : string) (e : exn),
    (fst (execute_trade now filled w) = Raise e ->
     strat (snd (execute_trade now filled w)) = strat w /\
     log (snd (execute_trade now filled w)) = log w /\
     exists os, orders (snd (execute_trade now filled w)) = orders w ++ os /\
                (List.length os <= 2)%nat) /\
    (fst (manage_position now w) = Raise e ->
     snd (manage_position now w) = w) /\
    (fst (close_position now reason w) = Raise e ->
     snd (close_position now reason w) = w).
Proof.
  intros w now filled reason e. split; [|split].
  - destruct (execute_trade_split w now filled)
      as [[o Ho] | (p & v & q & _ & _ & _ & _ & _ & Hsub)].
    + rewrite Ho. cbn [fst snd]. intros _.
      split; [reflexivity|]. split; [reflexivity|].
      exists []. rewrite app_nil_r. split; [reflexivity | cbn; lia].
    + rewrite Hsub.
      destruct (submit_bracket_split w
                  (entered_position (config (strat w)) p v q filled))
        as [Hin | (os & Hos & Hcase)].
      * rewrite Hin. cbn [fst]. discriminate.
      * rewrite Hos. cbn [fst snd with_orders strat log orders]. intros _.
        split; [reflexivity|]. split; [reflexivity|].
        exists os. split; [reflexivity|].
        destruct Hcase as [-> | [-> | ->]]; cbn; lia.
  - rewrite manage_position_cases.
    destruct (position (strat w)) as [pos|]; [|reflexivity].
    destruct (current_price (strat w)) as [p|]; [|reflexivity].
    destruct (fle (Fin p) (stop_price pos)); [discriminate|].
    destruct (fle (target_price pos) (Fin p)); [discriminate | reflexivity].
  - rewrite close_position_cases.
    destruct (position (strat w)) as [pos|]; [|reflexivity].
    destruct (current_price (strat w)) as [p|]; [discriminate | reflexivity].
Qed.

(** ** Invariants over any sequence of calls *)





Lemma ib_call (lib : TaLib) (c : Call) (w : World) :
  ib (strat (call lib c w)) = ib (strat w).
Proof.
  destruct c as [bar | now filled | now | now reason]; cbn [call].
  - destruct (update_market_data_frame lib bar (strat w)) as (H & _).
    exact H.
  - destruct (execute_trade_split w now filled)
      as [[o Ho] | (p & v & q & _ & _ & _ & _ & _ & Hsub)].
    + rewrite Ho. reflexivity.
    + rewrite Hsub.
      destruct (submit_bracket_split w
                  (entered_position (config (strat w)) p v q filled))
        as [Hin | (os & Hos & _)]; [rewrite Hin | rewrite Hos]; reflexivity.
  - rewrite manage_position_cases.
    destruct (position (strat w)) as [pos|]; [|reflexivity].
    destruct (current_price (strat w)) as [p|]; [|reflexivity].
    destruct (fle (Fin p) (stop_price pos)); [reflexivity|].
    destruct (fle (target_price pos) (Fin p)); reflexivity.
  - rewrite close_position_cases.
    destruct (position (strat w)) as [pos|]; [|reflexivity].
    destruct (current_price (strat w)) as [p|]; reflexivity.
Qed.

Lemma three_orders_call (lib : TaLib) (c : Call) (w : World) :
  always_answers (ib (strat w)) ->
  (Z.of_nat (List.length (orders (call lib c w)))
   - 3 * trades_today (strat (call lib c w))
   = Z.of_nat (List.length (orders w)) - 3 * trades_today (strat w))%Z.
Proof.
  intros Hg.
  destruct c as [bar | now filled | now | now reason]; cbn [call].
  - destruct (update_market_data_frame lib bar (strat w))
      as (_ & _ & _ & _ & _ & _ & Ht & _).
    cbn [strat orders]. rewrite Ht. reflexivity.
  - destruct (execute_trade_split w now filled)
      as [[o Ho] | (p & v & q & _ & _ & _ & _ & _ & Hsub)].
    + rewrite Ho. reflexivity.
    + rewrite Hsub, (submit_bracket_answered _ _ Hg).
      cbn [snd entered_world strat orders set_trades_today set_position
           trades_today].
      rewrite !length_app. cbn [List.length]. lia.
  - destruct (closing_sends_no_order w now "") as [_ H]. rewrite H.
    rewrite manage_position_cases.
    destruct (position (strat w)) as [pos|]; [|reflexivity].
    destruct (current_price (strat w)) as [p|]; [|reflexivity].
    destruct (fle (Fin p) (stop_price pos)); [reflexivity|].
    destruct (fle (target_price pos) (Fin p)); reflexivity.
  - destruct (closing_sends_no_order w now reason) as [H _]. rewrite H.
    rewrite close_position_cases.
    destruct (position (strat w)) as [pos|]; [|reflexivity].
    destruct (current_price (strat w)) as [p|]; reflexivity.
Qed.

(** X9.  At a broker session that never raises, every counted trade
    stands for exactly three submitted orders: over any sequence of calls
    the number of orders grows by three times the growth of
    [trades_today]. *)
Theorem three_orders_per_counted_trade :
  forall (lib : TaLib) (cs : list Call) (w : World),
    always_answers (ib (strat w)) ->
    let w' := calls lib cs w in
    (Z.of_nat (List.length (orders w')) - Z.of_nat (List.length (orders w))
     = 3 * (trades_today (strat w') - trades_today (strat w)))%Z.
Proof.
  intros lib cs. induction cs as [|c cs IH]; intros w Hg w'.
  - subst w'. unfold calls. cbn [fold_left]. lia.
  - subst w'. cbn [calls fold_left].
    pose proof (three_orders_call lib c w Hg) as H1.
    assert (Hg' : always_answers (ib (strat (call lib c w))))
      by (rewrite ib_call; exact Hg).
    pose proof (IH (call lib c w) Hg') as H2. cbn zeta in H2.
    unfold calls in H2. lia.
Qed.

Lemma three_orders_per_counted_trade_witness :
  let w := Scenario.world_of (Scenario.eligible Scenario.rejecting_ib 0) in
  let w' := calls Scenario.quiet_lib
              (Scenario.round_trip 1 ++ Scenario.round_trip 3) w in
  trades_today (strat w') = 2%Z /\
  (Z.of_nat (List.length (orders w')) - Z.of_nat (List.length (orders w))
   = 3 * (trades_today (strat w') - trades_today (strat w)))%Z.
Proof.
  assert (Hg : always_answers
                 (ib (strat (Scenario.world_of
                               (Scenario.eligible Scenario.rejecting_ib 0))))).
  { intros os o. discriminate. }
  split; [vm_compute; reflexivity|].
  exact (@three_orders_per_counted_trade Scenario.quiet_lib
           (Scenario.round_trip 1 ++ Scenario.round_trip 3)
           (Scenario.world_of (Scenario.eligible Scenario.rejecting_ib 0))
           Hg).
Defined.

(** ** Closing, continued *)

(** X10.  Closing is booked once: after [close_position], a second
    [close_position] or a [manage_position] changes nothing, whatever the
    clock and the reason given. *)
Theorem closing_twice_books_once :
  forall (w : World) (t1 t2 : datetime) (r1 r2 : string),
    let w1 := snd (close_position t1 r1 w) in
    snd (close_position t2 r2 w1) = w1 /\
    snd (manage_position t2 w1) = w1.
Proof.
  intros w t1 t2 r1 r2 w1. subst w1.
  rewrite (close_position_cases w).
  destruct (position (strat w)) as [pos|] eqn:Hp.
  - destruct (current_price (strat w)) as [p|] eqn:Hc.
    + cbn [snd]. rewrite close_position_cases, manage_position_cases.
      split; reflexivity.
    + cbn [snd]. rewrite close_position_cases, manage_position_cases.
      rewrite Hp, Hc. split; reflexivity.
  - cbn [snd]. rewrite close_position_cases, manage_position_cases.
    rewrite Hp. split; reflexivity.
Qed.

(** X11.  When [manage_position] closes a position of a non-negative
    quantity, the booked P&L is bounded by the level that triggered the
    exit, when that level is a number: on a "stop" exit it is at most
    [(stop_price - entry_price) * quantity], on a "target" exit at least
    [(target_price - entry_price) * quantity].  The exit is made at the
    current price, not at the level.  (A stop at plus infinity or a target
    at minus infinity triggers at any price.) *)
Theorem exit_pnl_is_bounded_by_its_trigger :
  forall (w w' : World) (now : datetime) (pos : Position),
    position (strat w) = Some pos ->
    (0 <= quantity pos)%Z ->
    manage_position now w = (Return tt, w') ->
    position (strat w') = None ->
    exists d,
      last_trade (strat w') = Some d /\
      daily_pnl (strat w') = daily_pnl (strat w) + td_pnl d /\
      current_price (strat w) = Some (td_exit_price d) /\
      ((td_reason d = "stop"%string /\
        (stop_price pos = PInf \/
         exists sp, stop_price pos = Fin sp /\
                    td_pnl d <= (sp - entry_price pos)
                                * inject_Z (quantity pos))) \/
       (td_reason d = "target"%string /\
        (target_price pos = NInf \/
         exists tp, target_price pos = Fin tp /\
                    (tp - entry_price pos) * inject_Z (quantity pos)
                    <= td_pnl d))).
Proof.
  intros w w' now pos Hp Hq Hm Hflat.
  rewrite manage_position_cases, Hp in Hm.
  destruct (current_price (strat w)) as [p|] eqn:Hc; [|discriminate].
  assert (Hq' : 0 <= inject_Z (quantity pos)).
  { change 0 with (inject_Z 0). rewrite <- Zle_Qle. exact Hq. }
  destruct (fle (Fin p) (stop_price pos)) eqn:Es.
  - injection Hm as <-.
    exists (closing_details (strat w) now "stop" pos p).
    split; [reflexivity|]. split; [reflexivity|]. split; [reflexivity|].
    left. split; [reflexivity|].
    apply stop_hit_iff in Es. unfold stop_hit in Es.
    destruct (stop_price pos) as [sp| | |]; try contradiction.
    + right. exists sp. split; [reflexivity|].
      cbn [td_pnl closing_details].
      apply Qmult_le_compat_r; [|exact Hq'].
      apply Qplus_le_l. exact Es.
    + left. reflexivity.
  - destruct (fle (target_price pos) (Fin p)) eqn:Et.
    + injection Hm as <-.
      exists (closing_details (strat w) now "target" pos p).
      split; [reflexivity|]. split; [reflexivity|]. split; [reflexivity|].
      right. split; [reflexivity|].
      apply target_hit_iff in Et. unfold target_hit in Et.
      destruct (target_price pos) as [tp| | |]; try contradiction.
      * right. exists tp. split; [reflexivity|].
        cbn [td_pnl closing_details].
        apply Qmult_le_compat_r; [|exact Hq'].
        apply Qplus_le_l. exact Et.
      * left. reflexivity.
    + injection Hm as <-. congruence.
Qed.

Lemma exit_pnl_is_bounded_by_its_trigger_witness :
  exists d,
    last_trade
      (strat (closed_world
                (Scenario.world_of
                   (Scenario.holding Scenario.paper_ib
                      (Scenario.long 100 10 98 105) 97))
                (Scenario.noon 1) "stop" (Scenario.long 100 10 98 105) 97))
      = Some d /\
    td_pnl d <= (98 - 100) * inject_Z 10.
Proof.
  assert (Hq : (0 <= quantity (Scenario.long 100 10 98 105))%Z)
    by discriminate.
  destruct (@exit_pnl_is_bounded_by_its_trigger
              (Scenario.world_of
                 (Scenario.holding Scenario.paper_ib
                    (Scenario.long 100 10 98 105) 97))
              _ (Scenario.noon 1) (Scenario.long 100 10 98 105)
              eq_refl Hq eq_refl eq_refl)
    as (d & Hd & _ & _ & [[_ [Hinf | (sp & Hsp & Hle)]] | [Hr _]]).
  - discriminate Hinf.
  - exists d. split; [exact Hd|]. injection Hsp as <-. exact Hle.
  - exfalso. cbn in Hd. injection Hd as <-. discriminate.
Defined.

(** ** The window over a whole feed *)

Lemma tail_app_tail {A} (n : nat) (l m : list A) :
  Py.tail n (Py.tail n l ++ m) = Py.tail n (l ++ m).
Proof.
  unfold Py.tail.
  destruct (Nat.le_gt_cases (List.length l) n) as [H|H].
  - replace (List.length l - n)%nat with 0%nat by lia. reflexivity.
  - rewrite length_app, length_skipn.
    replace (List.length l - (List.length l - n) + List.length m - n)%nat
      with (List.length m) by lia.
    rewrite length_app.
    replace (List.length l + List.length m - n)%nat
      with ((List.length l - n) + List.length m)%nat by lia.
    rewrite (Nat.add_comm (List.length l - n)).
    rewrite <- skipn_skipn. f_equal.
    rewrite skipn_app.
    replace (List.length l - n - List.length l)%nat with 0%nat by lia.
    reflexivity.
Qed.

Lemma feed_config (lib : TaLib) (bars : list Bar) (s : RangeStrategy) :
  config (feed lib bars s) = config s.
Proof.
  revert s. induction bars as [|b bars IH]; intros s; [reflexivity|].
  cbn [feed fold_left]. unfold feed in IH. rewrite IH.
  destruct (update_market_data_frame lib b s) as (_ & _ & H & _). exact H.
Qed.

Lemma feed_window (lib : TaLib) (bars : list Bar) (s : RangeStrategy) :
  bars <> [] ->
  historical_data (feed lib bars s)
  = Py.tail (max_period (config s) + 20)
            (historical_data s ++ map new_row bars).
Proof.
  revert s. induction bars as [|b bars IH]; intros s Hne; [congruence|].
  cbn [feed fold_left map].
  destruct (update_market_data_frame lib b s)
    as (_ & _ & Hc & _ & Hh & _).
  destruct bars as [|b' bars'].
  - cbn [fold_left map]. exact Hh.
  - unfold feed in IH. rewrite IH by discriminate.
    rewrite Hc, Hh, tail_app_tail, <- app_assoc. reflexivity.
Qed.

(** X12.  After feeding any non-empty list of bars, the window is the
    last [max(adx_period, bollinger_ma_period, rsi_period) + 20] rows of
    what was there followed by the fed bars, in arrival order: nothing is
    reordered, merged or dropped except from the old end.  The current
    price is the close of the last bar fed. *)
Theorem window_is_the_latest_rows :
  forall (lib : TaLib) (bars : list Bar) (last_bar : Bar) (s : RangeStrategy),
    let s' := feed lib (bars ++ [last_bar]) s in
    historical_data s'
    = Py.tail (max_period (config s) + 20)
              (historical_data s ++ map new_row (bars ++ [last_bar])) /\
    current_price s' = Some (bar_close last_bar) /\
    config s' = config s.
Proof.
  intros lib bars last_bar s s'. subst s'.
  split; [|split].
  - apply feed_window. destruct bars; discriminate.
  - unfold feed. rewrite fold_left_app. cbn [fold_left].
    destruct (update_market_data_frame lib last_bar
                (fold_left (fun s0 bar => snd (update_market_data lib bar s0))
                           bars s))
      as (_ & _ & _ & _ & _ & H & _).
    exact H.
  - apply feed_config.
Qed.

(** ** Warm-up *)

Lemma feed_short (lib : TaLib) (bars : list Bar) (s : RangeStrategy) :
  indicators_unset s ->
  (List.length (historical_data s) + List.length bars
   < max_period (config s))%nat ->
  indicators_unset (feed lib bars s) /\
  List.length (historical_data (feed lib bars s))
    = (List.length (historical_data s) + List.length bars)%nat.
Proof.
  revert s. induction bars as [|b bars IH]; intros s Hu Hlen.
  - split; [exact Hu|]. cbn [feed fold_left List.length]. lia.
  - cbn [feed fold_left]. cbn [List.length] in Hlen.
    assert (Hs : (List.length (historical_data s) + 1
                  < max_period (config s))%nat) by lia.
    rewrite (update_market_data_short lib b s Hs). cbn [snd].
    match goal with
    | |- context [fold_left _ bars ?x] =>
        destruct (IH x) as [IH1 IH2]
    end.
    + exact Hu.
    + cbn [historical_data config]. rewrite length_app.
      cbn [List.length]. lia.
    + unfold feed in IH1, IH2. split; [exact IH1|].
      rewrite IH2. cbn [historical_data]. rewrite length_app.
      cbn [List.length]. lia.
Qed.

(** X13.  On an object built by the constructor, an update that brings
    the number of bars fed to fewer than
    [max(adx_period, bollinger_ma_period, rsi_period)] returns with the four
    indicators all still None; a later update that returns leaves all four
    set, to Series.  [atr_period] plays no part in when they appear.  (An
    update in which TA-Lib raises can leave some set and some not.) *)
Theorem indicators_appear_after_max_period_bars :
  forall (lib : TaLib) (bars : list Bar) (last_bar : Bar)
         (g : IB) (sym : string) (cfg : option UserConfig),
    let r := update_market_data lib last_bar
               (feed lib bars (__init__ g sym cfg)) in
    let n := List.length (bars ++ [last_bar]) in
    ((n < max_period (_validate_config cfg))%nat ->
     fst r = Return tt /\ indicators_unset (snd r)) /\
    ((max_period (_validate_config cfg) <= n)%nat ->
     fst r = Return tt ->
     indicators_set (snd r) /\
     forall now, evaluate_entry (snd r) now <> Return true).
Proof.
  intros lib bars last_bar g sym cfg r n.
  set (s := feed lib bars (__init__ g sym cfg)) in *.
  assert (Hc : config s = _validate_config cfg)
    by (subst s; rewrite feed_config; reflexivity).
  assert (Hn : n = (List.length bars + 1)%nat).
  { subst n. rewrite length_app. reflexivity. }
  split.
  - intros Hlt.
    assert (Hu0 : indicators_unset (__init__ g sym cfg)) by (repeat split).
    destruct (@feed_short lib bars (__init__ g sym cfg) Hu0) as [Hu Hl].
    { cbn [__init__ historical_data config List.length]. lia. }
    fold s in Hu, Hl.
    cbn [__init__ historical_data List.length] in Hl.
    subst r. rewrite update_market_data_short by (rewrite Hc, Hl; lia).
    cbn [fst snd]. split; [reflexivity|]. exact Hu.
  - intros Hge Hret.
    assert (Hlen : (max_period (config s)
                    <= List.length (historical_data s) + 1)%nat).
    { rewrite Hc. destruct bars as [|b bars'].
      - cbn [List.length] in Hn. lia.
      - subst s. rewrite feed_window by discriminate.
        cbn [__init__ historical_data config app].
        unfold Py.tail. rewrite length_skipn, length_map.
        cbn [List.length] in *. lia. }
    destruct (update_market_data_stores_series lib last_bar s Hlen Hret)
      as (a & up & mid & lo & x & v & Ha & Hb & Hx & Hv).
    fold r in Ha, Hb, Hx, Hv.
    split.
    + unfold indicators_set. rewrite Ha, Hb, Hx, Hv.
      repeat split; discriminate.
    + intros now H. apply evaluate_entry_true_inv in H.
      destruct H as (_ & a' & r' & lo' & p' & Ha' & _).
      rewrite Ha in Ha'. discriminate.
Qed.

(** With an RSI period of 1 and the other periods at their defaults, a
    TA-Lib that refuses periods below 2 raises on the twentieth bar, after
    ADX and the bands were stored and before RSI and ATR are. *)
Example indicators_half_set_after_raise :
  let r := update_market_data Scenario.strict_lib
             (Scenario.bar_at (Scenario.minute 20) 49)
             (feed Scenario.strict_lib
                (map (fun k => Scenario.bar_at (Scenario.minute (Z.of_nat k)) 49)
                     (seq 1 19))
                (__init__ Scenario.paper_ib "AAPL"
                          (Some (Scenario.only_rsi_period 1)))) in
  fst r = Raise Exception /\
  adx (snd r) <> None /\ bollinger (snd r) <> None /\
  rsi (snd r) = None /\ atr (snd r) = None /\
  current_price (snd r) = Some 49 /\
  List.length (historical_data (snd r)) = 20%nat.
Proof. vm_compute. repeat split; discriminate. Qed.

(** ** An engine driven through its methods only *)

Lemma calculate_indicators_own_adx (lib : TaLib) (s : RangeStrategy) :
  own_indicator (adx s) ->
  own_indicator (adx (snd (calculate_indicators lib s))).
Proof.
  intros H. unfold calculate_indicators.
  destruct (List.length (historical_data s) <? max_period (config s))%nat;
    [exact H|].
  destruct (ADX lib _ _ _ _) as [a|e]; [|exact H].
  assert (Ho : own_indicator (Some (PdSeries a)))
    by (right; exists a; reflexivity).
  destruct (BBANDS lib _ _ _ _ _) as [[[up mid] lo]|e]; [|exact Ho].
  destruct (RSI lib _ _) as [x|e]; [|exact Ho].
  destruct (ATR lib _ _ _ _) as [v|e]; exact Ho.
Qed.

Lemma never_enters_call (lib : TaLib) (c : Call) (w : World) :
  position (strat w) = None -> own_indicator (adx (strat w)) ->
  let w' := call lib c w in
  position (strat w') = None /\ own_indicator (adx (strat w')) /\
  trades_today (strat w') = trades_today (strat w) /\
  daily_pnl (strat w') = daily_pnl (strat w) /\
  orders w' = orders w /\ log w' = log w.
Proof.
  intros Hp Ha.
  destruct c as [bar | now filled | now | now reason]; cbn [call].
  - destruct (update_market_data_frame lib bar (strat w))
      as (_ & _ & _ & Hpos & _ & _ & Ht & Hd & _).
    cbn [strat orders log]. rewrite Hpos, Ht, Hd.
    split; [exact Hp|]. split; [|repeat split].
    rewrite update_market_data_unfold.
    apply calculate_indicators_own_adx. exact Ha.
  - rewrite execute_trade_unfold.
    destruct (evaluate_entry_own_adx (strat w) now Hp Ha) as [E | E];
      rewrite E; cbn [snd]; repeat split; assumption.
  - rewrite manage_position_cases, Hp. cbn [snd].
    repeat split; assumption.
  - rewrite close_position_cases, Hp. cbn [snd].
    repeat split; assumption.
Qed.

(** X26.  An engine built by the constructor and driven only through
    [update_market_data], [execute_trade], [manage_position] and
    [close_position] never trades: its indicators are None or Series, so
    [evaluate_entry] raises at [self.adx[-1]] (TypeError or KeyError) on
    every call; no position is ever opened, no order sent, nothing logged,
    and [trades_today] and [daily_pnl] stay 0. *)
Theorem engine_never_enters :
  forall (lib : TaLib) (cs : list Call)
         (g : IB) (sym : string) (cfg : option UserConfig) (now : datetime),
    let w := calls lib cs (new_world g sym cfg) in
    (evaluate_entry (strat w) now = Raise TypeError \/
     evaluate_entry (strat w) now = Raise KeyError) /\
    position (strat w) = None /\
    trades_today (strat w) = 0%Z /\ daily_pnl (strat w) = 0 /\
    orders w = [] /\ log w = [].
Proof.
  intros lib cs g sym cfg now w.
  assert (H : position (strat w) = None /\ own_indicator (adx (strat w)) /\
              trades_today (strat w) = 0%Z /\ daily_pnl (strat w) = 0 /\
              orders w = [] /\ log w = []).
  { subst w.
    assert (H0 : position (strat (new_world g sym cfg)) = None /\
                 own_indicator (adx (strat (new_world g sym cfg))) /\
                 trades_today (strat (new_world g sym cfg)) = 0%Z /\
                 daily_pnl (strat (new_world g sym cfg)) = 0 /\
                 orders (new_world g sym cfg) = [] /\
                 log (new_world g sym cfg) = []).
    { repeat split. left. reflexivity. }
    revert H0. generalize (new_world g sym cfg).
    induction cs as [|c cs IH]; intros w0 H0; [exact H0|].
    cbn [calls fold_left]. apply IH.
    destruct H0 as (Hp & Ha & Ht & Hd & Ho & Hl).
    destruct (never_enters_call lib c w0 Hp Ha)
      as (Hp' & Ha' & Ht' & Hd' & Ho' & Hl').
    repeat split; congruence. }
  destruct H as (Hp & Ha & Ht & Hd & Ho & Hl).
  split; [apply evaluate_entry_own_adx; assumption|].
  repeat split; assumption.
Qed.

(** * The configuration dict and its callers *)

Lemma get_set_same (k : string) (v : Raw.value) (d : Raw.dict) :
  Raw.get k (Raw.set k v d) = Some v.
Proof.
  induction d as [|[k' v'] d IH]; cbn [Raw.set Raw.get].
  - rewrite String.eqb_refl. reflexivity.
  - destruct (String.eqb k k') eqn:E; cbn [Raw.get].
    + rewrite String.eqb_refl. reflexivity.
    + rewrite E. exact IH.
Qed.

Lemma get_set_other (k k' : string) (v : Raw.value) (d : Raw.dict) :
  k <> k' -> Raw.get k' (Raw.set k v d) = Raw.get k' d.
Proof.
  intros Hne. induction d as [|[k0 v0] d IH]; cbn [Raw.set Raw.get].
  - destruct (String.eqb k' k) eqn:E; [|reflexivity].
    apply String.eqb_eq in E. congruence.
  - destruct (String.eqb k k0) eqn:E; cbn [Raw.get].
    + apply String.eqb_eq in E. subst k0.
      destruct (String.eqb k' k) eqn:E'; [|reflexivity].
      apply String.eqb_eq in E'. congruence.
    + destruct (String.eqb k' k0); [reflexivity | exact IH].
Qed.

Lemma get_absent (k : string) (d : Raw.dict) :
  ~ In k (Raw.keys d) -> Raw.get k d = None.
Proof.
  induction d as [|[k' v'] d IH]; intros H; cbn [Raw.get]; [reflexivity|].
  destruct (String.eqb k k') eqn:E.
  - apply String.eqb_eq in E. exfalso. apply H. left. symmetry. exact E.
  - apply IH. intro Hin. apply H. right. exact Hin.
Qed.

Lemma get_update (k : string) (d u : Raw.dict) :
  NoDup (Raw.keys u) ->
  Raw.get k (Raw.update d u)
  = match Raw.get k u with
    | Some v => Some v
    | None => Raw.get k d
    end.
Proof.
  revert d. induction u as [|[k0 v0] u IH]; intros d Hnd; [reflexivity|].
  cbn [Raw.keys map fst] in Hnd. inversion Hnd as [|? ? Hnotin Hnd']; subst.
  unfold Raw.update in *. cbn [fold_left fst snd Raw.get].
  rewrite (IH (Raw.set k0 v0 d) Hnd').
  destruct (String.eqb k k0) eqn:E.
  - apply String.eqb_eq in E. subst k0.
    rewrite (get_absent k u Hnotin). apply get_set_same.
  - destruct (Raw.get k u); [reflexivity|].
    apply get_set_other. intro H. subst k0.
    rewrite String.eqb_refl in E. discriminate.
Qed.

(** X14.  In the dict built by [_validate_config], a key given by the
    caller carries the caller's value, any other key carries its default;
    so each of the keys the engine subscripts is always present, keys the
    engine does not know are carried along without effect on them, and no
    configuration at all gives the defaults. *)
Theorem validate_config_lookup :
  forall (u : Raw.dict) (k : string),
    NoDup (Raw.keys u) ->
    Raw.get k (Raw._validate_config (Some u))
    = match Raw.get k u with
      | Some v => Some v
      | None => Raw.get k Raw.defaults
      end /\
    (In k Raw.keys_read ->
     Raw.get k (Raw._validate_config (Some u)) <> None) /\
    (Raw.get k u = None ->
     Raw.get k (Raw._validate_config (Some u))
     = Raw.get k (Raw._validate_config None)).
Proof.
  intros u k Hnd.
  assert (H : Raw.get k (Raw._validate_config (Some u))
              = match Raw.get k u with
                | Some v => Some v
                | None => Raw.get k Raw.defaults
                end) by (apply get_update; exact Hnd).
  split; [exact H|]. split.
  - intros Hin. rewrite H. destruct (Raw.get k u); [discriminate|].
    cbn [Raw.keys_read In] in Hin.
    repeat (destruct Hin as [<- | Hin]; [discriminate|]). contradiction.
  - intros Hn. rewrite H, Hn. reflexivity.
Qed.

Lemma validate_config_lookup_witness :
  Raw.get "atr_period"
    (Raw._validate_config
       (Some [("atr_period", Raw.VInt 7); ("colour", Raw.VStr "red")]%string))
  = Some (Raw.VInt 7).
Proof.
  assert (Hnd : NoDup (Raw.keys
                         [("atr_period", Raw.VInt 7);
                          ("colour", Raw.VStr "red")]%string)).
  { repeat constructor; cbn; intuition discriminate. }
  exact (proj1 (@validate_config_lookup _ "atr_period"%string Hnd)).
Defined.

(** X15.  [load_config] insists on both session times: if
    "trade_start_time" or "trade_end_time" is missing from the JSON object
    it raises KeyError, although the engine has defaults for them.  When it
    returns, the two entries are the parsed times and every other entry is
    as in the file. *)
Theorem load_config_needs_both_times :
  forall (fromisoformat : string -> option timeofday) (config : Raw.dict),
    (Raw.get "trade_start_time" config = None ->
     Raw.load_config fromisoformat config
     = Raw.Err (Raw.KeyError "trade_start_time")) /\
    (Raw.get "trade_start_time" config <> None ->
     Raw.get "trade_end_time" config = None ->
     exists r, Raw.load_config fromisoformat config = Raw.Err r /\
               (r = Raw.KeyError "trade_end_time" \/ exists e, r = Raw.Other e)) /\
    (forall config',
       Raw.load_config fromisoformat config = Raw.Ok config' ->
       (exists s1 s2 t1 t2,
          Raw.get "trade_start_time" config = Some (Raw.VStr s1) /\
          Raw.get "trade_end_time" config = Some (Raw.VStr s2) /\
          fromisoformat s1 = Some t1 /\ fromisoformat s2 = Some t2 /\
          Raw.get "trade_start_time" config' = Some (Raw.VTime t1) /\
          Raw.get "trade_end_time" config' = Some (Raw.VTime t2)) /\
       (forall k, k <> "trade_start_time"%string ->
                  k <> "trade_end_time"%string ->
                  Raw.get k config' = Raw.get k config)).
Proof.
  intros f config.
  assert (Hne : "trade_start_time"%string <> "trade_end_time"%string)
    by discriminate.
  split; [|split].
  - intros H. unfold Raw.load_config, Raw.parse_time. rewrite H. reflexivity.
  - intros H1 H2. unfold Raw.load_config, Raw.parse_time.
    destruct (Raw.get "trade_start_time" config) as [[z|x|s|t]|];
      try (eexists; split; [reflexivity | right; eexists; reflexivity]);
      [|congruence].
    destruct (f s) as [t|];
      [|eexists; split; [reflexivity | right; eexists; reflexivity]].
    rewrite (get_set_other _ _ Hne), H2.
    eexists. split; [reflexivity | left; reflexivity].
  - intros config' H. unfold Raw.load_config, Raw.parse_time in H.
    destruct (Raw.get "trade_start_time" config) as [[z|x|s1|t]|] eqn:E1;
      try discriminate.
    destruct (f s1) as [t1|] eqn:F1; [|discriminate].
    rewrite (get_set_other _ _ Hne) in H.
    destruct (Raw.get "trade_end_time" config) as [[z|x|s2|t]|] eqn:E2;
      try discriminate.
    destruct (f s2) as [t2|] eqn:F2; [|discriminate].
    injection H as <-. split.
    + exists s1, s2, t1, t2. do 4 (split; [reflexivity || assumption|]).
      split.
      * rewrite get_set_other by congruence. apply get_set_same.
      * apply get_set_same.
    + intros k Hk1 Hk2.
      rewrite !get_set_other by congruence. reflexivity.
Qed.

(** ** The parameter form *)

(** Unfolding [get_parameters] on the thirteen fields, one test at a
    time. *)
Ltac step_form H :=
  match type of H with
  | context [if String.eqb ?t "" then _ else _] =>
      let E := fresh "Esym" in
      destruct (String.eqb t "") eqn:E; cbn in H; try discriminate H
  | context [match ?fl ?t with Some _ => _ | None => _ end] =>
      let E := fresh "Efl" in
      let x := fresh "x" in
      destruct (fl t) as [x|] eqn:E; cbn in H; try discriminate H
  end.

Lemma get_parameters_edited (float : string -> option pyfloat)
  (texts : string -> string) (params : Raw.dict) :
  Raw.get_parameters float (Raw.edited texts) = Return params ->
  texts "symbol"%string <> ""%string /\
  exists x1 x2 x3 x4 x5 x6 x7 x8 x9 x10 x11 x12,
    float (texts "adx_period"%string) = Some x1 /\
    float (texts "adx_threshold"%string) = Some x2 /\
    float (texts "bollinger_period"%string) = Some x3 /\
    float (texts "bollinger_std_dev"%string) = Some x4 /\
    float (texts "rsi_period"%string) = Some x5 /\
    float (texts "rsi_oversold"%string) = Some x6 /\
    float (texts "atr_period"%string) = Some x7 /\
    float (texts "stop_loss_mult"%string) = Some x8 /\
    float (texts "profit_target"%string) = Some x9 /\
    float (texts "risk_per_trade"%string) = Some x10 /\
    float (texts "max_trades"%string) = Some x11 /\
    float (texts "daily_loss_limit"%string) = Some x12 /\
    params =
      [("symbol", Raw.VStr (texts "symbol"));
       ("adx_period", Raw.VFloat x1);
       ("adx_threshold", Raw.VFloat x2);
       ("bollinger_period", Raw.VFloat x3);
       ("bollinger_std_dev", Raw.VFloat x4);
       ("rsi_period", Raw.VFloat x5);
       ("rsi_oversold", Raw.VFloat x6);
       ("atr_period", Raw.VFloat x7);
       ("stop_loss_mult", Raw.VFloat x8);
       ("profit_target", Raw.VFloat x9);
       ("risk_per_trade", Raw.VFloat x10);
       ("max_trades", Raw.VFloat x11);
       ("daily_loss_limit", Raw.VFloat x12)]%string.
Proof.
  intros H. unfold Raw.get_parameters, Raw.edited in H. cbn in H.
  do 13 step_form H.
  injection H as <-.
  split.
  - intro E. rewrite E in Esym. discriminate.
  - do 12 eexists. repeat (split; [reflexivity|]). reflexivity.
Qed.

(** X16.  [get_parameters] on the form accepts exactly the entries where
    the symbol is not empty and each of the twelve other texts converts
    with [float]; nothing else is checked, so zero, negative and
    non-integral values pass.  When it returns, the dict has the form's
    thirteen keys, the symbol as text and the twelve others as floats. *)
Theorem get_parameters_checks_only_the_syntax :
  forall (float : string -> option pyfloat) (texts : string -> string),
    ((exists params,
        Raw.get_parameters float (Raw.edited texts) = Return params) <->
     (texts "symbol"%string <> ""%string /\
      forall k, In k (List.tl (map fst Raw.create_parameter_panel)) ->
                float (texts k) <> None)) /\
    (forall params,
       Raw.get_parameters float (Raw.edited texts) = Return params ->
       Raw.keys params = map fst Raw.create_parameter_panel /\
       Raw.get "symbol" params = Some (Raw.VStr (texts "symbol"%string)) /\
       forall k, In k (List.tl (map fst Raw.create_parameter_panel)) ->
                 exists x, float (texts k) = Some x /\
                           Raw.get k params = Some (Raw.VFloat x)) /\
    (forall e,
       Raw.get_parameters float (Raw.edited texts) = Raise e ->
       e = ValueError).
Proof.
  intros float texts.
  assert (Hshape : forall params,
            Raw.get_parameters float (Raw.edited texts) = Return params ->
            Raw.keys params = map fst Raw.create_parameter_panel /\
            Raw.get "symbol" params = Some (Raw.VStr (texts "symbol"%string)) /\
            forall k, In k (List.tl (map fst Raw.create_parameter_panel)) ->
                      exists x, float (texts k) = Some x /\
                                Raw.get k params = Some (Raw.VFloat x)).
  { intros params H. apply get_parameters_edited in H.
    destruct H as (_ & x1 & x2 & x3 & x4 & x5 & x6 & x7 & x8 & x9 & x10
                   & x11 & x12 & E1 & E2 & E3 & E4 & E5 & E6 & E7 & E8 & E9
                   & E10 & E11 & E12 & ->).
    split; [reflexivity|]. split; [reflexivity|].
    intros k Hin. cbn in Hin.
    repeat (destruct Hin as [<- | Hin];
            [eexists; split; [eassumption | reflexivity]|]).
    contradiction. }
  split; [|split].
  - split.
    + intros [params H]. split.
      * apply get_parameters_edited in H. apply H.
      * intros k Hin. destruct (proj2 (proj2 (Hshape params H)) k Hin)
          as (x & Ex & _). congruence.
    + intros [Hsym Hall].
      assert (Hf : forall k,
                In k (List.tl (map fst Raw.create_parameter_panel)) ->
                exists x, float (texts k) = Some x).
      { intros k Hin. specialize (Hall k Hin).
        destruct (float (texts k)) as [x|]; [exists x; reflexivity | congruence]. }
      assert (Es : String.eqb (texts "symbol"%string) "" = false)
        by (apply String.eqb_neq; exact Hsym).
      unfold Raw.get_parameters, Raw.edited. cbn. rewrite Es. cbn.
      repeat match goal with
             | |- context [match float (texts ?k) with _ => _ end] =>
                 let x := fresh "x" in
                 let E := fresh "E" in
                 destruct (Hf k) as [x E];
                 [cbn; intuition auto | rewrite E; cbn]
             end.
      eexists. reflexivity.
  - exact Hshape.
  - intros e H. unfold Raw.get_parameters, Raw.edited in H. cbn in H.
    repeat match type of H with
           | context [if String.eqb ?t "" then _ else _] =>
               destruct (String.eqb t ""); cbn in H
           | context [match float ?t with Some _ => _ | None => _ end] =>
               destruct (float t); cbn in H
           end;
      congruence.
Qed.

(** X17.  Of the twelve numeric fields of the form, six never reach the
    engine: the form calls them "bollinger_period", "stop_loss_mult",
    "profit_target", "risk_per_trade", "max_trades" and "daily_loss_limit",
    the engine reads "bollinger_ma_period", "stop_loss_atr_multiplier",
    "profit_target_pct", "risk_per_trade_pct", "max_trades_per_day" and
    "daily_loss_limit_pct".  Whatever is typed there, the engine that
    [start_strategy] builds runs on the defaults for those six (and for
    the session times); only the six fields whose keys agree get
    through. *)
Theorem form_fields_that_never_reach_the_engine :
  forall (float : string -> option pyfloat) (isConnected : bool)
         (texts : string -> string) (c : Raw.dict),
    Raw.start_strategy float isConnected (Raw.edited texts) = Some c ->
    (forall k,
       In k ["bollinger_ma_period"; "stop_loss_atr_multiplier";
             "profit_target_pct"; "risk_per_trade_pct";
             "max_trades_per_day"; "daily_loss_limit_pct";
             "trade_start_time"; "trade_end_time"]%string ->
       Raw.get k c = Raw.get k Raw.defaults) /\
    (forall k,
       In k ["adx_period"; "adx_threshold"; "bollinger_std_dev";
             "rsi_period"; "rsi_oversold"; "atr_period"]%string ->
       exists x, float (texts k) = Some x /\
                 Raw.get k c = Some (Raw.VFloat x)).
Proof.
  intros float isConnected texts c H.
  unfold Raw.start_strategy in H.
  destruct isConnected; cbn [negb] in H; [|discriminate].
  unfold Raw.validate_parameters in H.
  destruct (Raw.get_parameters float (Raw.edited texts)) as [params|e] eqn:E;
    cbn [negb] in H; [|discriminate].
  injection H as <-.
  apply get_parameters_edited in E.
  destruct E as (_ & x1 & x2 & x3 & x4 & x5 & x6 & x7 & x8 & x9 & x10
                 & x11 & x12 & E1 & E2 & E3 & E4 & E5 & E6 & E7 & E8 & E9
                 & E10 & E11 & E12 & ->).
  split.
  - intros k Hin. cbn [In] in Hin.
    repeat (destruct Hin as [<- | Hin]; [reflexivity|]). contradiction.
  - intros k Hin. cbn [In] in Hin.
    repeat (destruct Hin as [<- | Hin];
            [eexists; split; [eassumption | reflexivity]|]).
    contradiction.
Qed.

Lemma form_fields_that_never_reach_the_engine_witness :
  let float := fun s : string =>
                 if String.eqb s "9" then Some (Fin 9) else Some (Fin 1) in
  let texts := fun k : string =>
                 if String.eqb k "symbol" then "AAPL"%string else "9"%string in
  exists c,
    Raw.start_strategy float true (Raw.edited texts) = Some c /\
    Raw.get "stop_loss_atr_multiplier" c = Some (Raw.VFloat (Fin (3 # 2))) /\
    Raw.get "stop_loss_mult" c = Some (Raw.VFloat (Fin 9)).
Proof.
  intros float texts.
  eexists. split; [reflexivity|]. split; [|reflexivity].
  refine (proj1 (@form_fields_that_never_reach_the_engine
                   float true texts _ eq_refl)
                "stop_loss_atr_multiplier"%string _).
  cbn. intuition auto.
Defined.

(** * The moving-average crossover *)

Lemma greater_map {A} (f g : A -> Q) (l : list A) :
  Crossover.greater (map f l) (map g l)
  = map (fun i => if Qle_bool (f i) (g i) then 0 else 1) l.
Proof.
  induction l as [|a l IH]; [reflexivity|].
  cbn [map Crossover.greater]. rewrite IH. reflexivity.
Qed.

Lemma rolling_mean_return (w : nat) (close l : list Q) :
  Crossover.rolling_mean w close = Return l ->
  (1 <= w)%nat /\
  l = map (fun i => Crossover.mean (Py.tail w (firstn (S i) close)))
          (seq 0 (List.length close)).
Proof.
  unfold Crossover.rolling_mean. destruct w; [discriminate|].
  intros H. injection H as <-. split; [lia | reflexivity].
Qed.

(** The signal column as a function of the row number. *)
Lemma generate_signals_return (self : Crossover.MovingAverageCrossoverStrategy)
  (close : list Q) (sg : Crossover.Signals) :
  Crossover.generate_signals self close = Return sg ->
  (1 <= Crossover.short_window self)%nat /\
  (1 <= Crossover.long_window self)%nat /\
  Crossover.signal sg
  = map (fun i =>
           if Qle_bool
                (Crossover.mean
                   (Py.tail (Crossover.short_window self) (firstn (S i) close)))
                (Crossover.mean
                   (Py.tail (Crossover.long_window self) (firstn (S i) close)))
           then 0 else 1)
        (seq 0 (List.length close)) /\
  Crossover.positions sg = Crossover.diff (Crossover.signal sg).
Proof.
  unfold Crossover.generate_signals. intros H.
  destruct (Crossover.rolling_mean (Crossover.short_window self) close)
    as [short|e] eqn:Es; [|discriminate].
  destruct (Crossover.rolling_mean (Crossover.long_window self) close)
    as [long|e] eqn:El; [|discriminate].
  cbn [Py.bind] in H. injection H as <-.
  apply rolling_mean_return in Es, El.
  destruct Es as [Hs ->]. destruct El as [Hl ->].
  cbn [Crossover.signal Crossover.positions].
  rewrite greater_map. repeat split; assumption.
Qed.

Lemma diff_length (l : list Q) :
  List.length (Crossover.diff l) = List.length l.
Proof.
  destruct l as [|x l]; [reflexivity|]. cbn [Crossover.diff List.length].
  f_equal. revert x. induction l as [|y l IH]; intros x; [reflexivity|].
  cbn [Crossover.diff_from List.length]. f_equal. apply IH.
Qed.

(** X18.  [generate_signals] raises ValueError when a window is 0 and
    otherwise returns one row per close.  During the first
    [min(short_window, long_window)] rows both means average the same rows,
    so the signal is 0 there: no crossover is ever reported before the
    shorter window is full. *)
Theorem no_signal_before_the_short_window_is_full :
  forall (self : Crossover.MovingAverageCrossoverStrategy) (close : list Q),
    ((Crossover.short_window self = 0%nat \/
      Crossover.long_window self = 0%nat) ->
     Crossover.generate_signals self close = Raise ValueError) /\
    (forall sg,
       Crossover.generate_signals self close = Return sg ->
       List.length (Crossover.signal sg) = List.length close /\
       List.length (Crossover.positions sg) = List.length close /\
       forall i,
         (i < Nat.min (Crossover.short_window self)
                      (Crossover.long_window self))%nat ->
         (i < List.length close)%nat ->
         nth_error (Crossover.signal sg) i = Some 0).
Proof.
  intros self close. split.
  - unfold Crossover.generate_signals, Crossover.rolling_mean.
    destruct (Crossover.short_window self); [reflexivity|].
    intros [H|H]; [discriminate|]. rewrite H. reflexivity.
  - intros sg H. apply generate_signals_return in H.
    destruct H as (_ & _ & Hsig & Hpos).
    split; [rewrite Hsig, length_map, length_seq; reflexivity|].
    split; [rewrite Hpos, diff_length, Hsig, length_map, length_seq;
            reflexivity|].
    intros i Hi Hlen. rewrite Hsig.
    rewrite nth_error_map, nth_error_seq.
    apply Nat.ltb_lt in Hlen. rewrite Hlen. cbn [option_map Nat.add].
    assert (Hf : (List.length (firstn (S i) close) <= S i)%nat)
      by apply firstn_le_length.
    rewrite !tail_short by lia.
    assert (E : forall x, Qle_bool x x = true)
      by (intros x; apply Qle_bool_iff; apply Qle_refl).
    rewrite E. reflexivity.
Qed.

(** X19.  With equal windows the two means coincide on every row: the
    signal is 0 throughout and no position change is ever reported. *)
Theorem equal_windows_never_signal :
  forall (self : Crossover.MovingAverageCrossoverStrategy) (close : list Q)
         (sg : Crossover.Signals),
    Crossover.short_window self = Crossover.long_window self ->
    Crossover.generate_signals self close = Return sg ->
    Crossover.signal sg = repeat 0 (List.length close) /\
    Crossover.positions sg
    = match close with
      | [] => []
      | _ :: rest => NaN :: repeat (Fin 0) (List.length rest)
      end.
Proof.
  intros self close sg Heq H. apply generate_signals_return in H.
  destruct H as (_ & _ & Hsig & Hpos).
  assert (E : forall x, Qle_bool x x = true)
    by (intros x; apply Qle_bool_iff; apply Qle_refl).
  assert (Hs : Crossover.signal sg = repeat 0 (List.length close)).
  { rewrite Hsig, Heq.
    rewrite (map_ext _ (fun _ : nat => 0))
      by (intros i; rewrite E; reflexivity).
    rewrite map_const, length_seq. reflexivity. }
  split; [exact Hs|].
  rewrite Hpos, Hs. destruct close as [|c rest]; [reflexivity|].
  cbn [List.length repeat Crossover.diff]. f_equal.
  induction (List.length rest) as [|n IH]; [reflexivity|].
  cbn [repeat Crossover.diff_from]. f_equal. exact IH.
Qed.

Lemma equal_windows_never_signal_witness :
  exists sg,
    Crossover.generate_signals
      {| Crossover.short_window := 2; Crossover.long_window := 2 |}
      [10; 12; 11] = Return sg /\
    Crossover.signal sg = [0; 0; 0].
Proof.
  eexists. split; [reflexivity|].
  exact (proj1 (@equal_windows_never_signal
                  {| Crossover.short_window := 2; Crossover.long_window := 2 |}
                  [10; 12; 11] _ eq_refl eq_refl)).
Defined.

Lemma nansum_diff_from (l : list Q) (x : Q) (n : nat) :
  (n <= List.length l)%nat ->
  Crossover.nansum (firstn n (Crossover.diff_from x l))
  == nth n (x :: l) 0 - x.
Proof.
  revert x n. induction l as [|y l IH]; intros x n Hn.
  - cbn [List.length] in Hn. replace n with 0%nat by lia.
    cbn [Crossover.diff_from firstn Crossover.nansum fold_right nth]. ring.
  - destruct n as [|m].
    + cbn [firstn Crossover.nansum fold_right nth]. ring.
    + cbn [Crossover.diff_from firstn Crossover.nansum fold_right].
      cbn [List.length] in Hn.
      change (fold_right
                (fun x0 acc => match x0 with Fin q => q + acc | _ => acc end)
                0 (firstn m (Crossover.diff_from y l)))
        with (Crossover.nansum (firstn m (Crossover.diff_from y l))).
      rewrite (IH y m) by lia.
      change (nth (S m) (x :: y :: l) 0) with (nth m (y :: l) 0). ring.
Qed.

Lemma diff_from_steps (l : list Q) (x : Q) :
  (x = 0 \/ x = 1) ->
  Forall (fun s => s = 0 \/ s = 1) l ->
  Forall (fun p => p = Fin (-1) \/ p = Fin 0 \/ p = Fin 1)
         (Crossover.diff_from x l).
Proof.
  revert x. induction l as [|y l IH]; intros x Hx Hl; [constructor|].
  inversion Hl as [|? ? Hy Hl']; subst.
  cbn [Crossover.diff_from]. constructor.
  - destruct Hx as [-> | ->], Hy as [-> | ->];
      [right; left | right; right | left | right; left]; reflexivity.
  - apply IH; assumption.
Qed.

(** X20.  In the table [generate_signals] returns, every signal is 0 or 1,
    the first position is NaN and every later one is -1, 0 or 1; and the
    positions up to any row add up to the signal on that row.  So
    entries (+1) and exits (-1) alternate, starting with an entry. *)
Theorem positions_add_up_to_the_signal :
  forall (self : Crossover.MovingAverageCrossoverStrategy) (close : list Q)
         (sg : Crossover.Signals),
    Crossover.generate_signals self close = Return sg ->
    Forall (fun s => s = 0 \/ s = 1) (Crossover.signal sg) /\
    (close <> [] -> List.hd_error (Crossover.positions sg) = Some NaN) /\
    Forall (fun p => p = Fin (-1) \/ p = Fin 0 \/ p = Fin 1)
           (List.tl (Crossover.positions sg)) /\
    forall m, (m < List.length close)%nat ->
              Crossover.nansum (firstn (S m) (Crossover.positions sg))
              == nth m (Crossover.signal sg) 0.
Proof.
  intros self close sg H.
  pose proof (generate_signals_return _ _ H) as (Hs & Hl & Hsig & Hpos).
  assert (H01 : Forall (fun s => s = 0 \/ s = 1) (Crossover.signal sg)).
  { rewrite Hsig. apply Forall_map. apply Forall_forall. intros i _.
    destruct (Qle_bool _ _); [left | right]; reflexivity. }
  assert (Hlen : List.length (Crossover.signal sg) = List.length close)
    by (rewrite Hsig, length_map, length_seq; reflexivity).
  assert (H0 : forall s0 rest, Crossover.signal sg = s0 :: rest -> s0 = 0).
  { intros s0 rest Es.
    assert (E : nth_error (Crossover.signal sg) 0 = Some 0).
    { rewrite Hsig, nth_error_map, nth_error_seq.
      destruct close as [|c close']; [rewrite Es in Hlen; discriminate|].
      cbn [List.length Nat.ltb Nat.leb option_map Nat.add firstn].
      rewrite !tail_short by (cbn; lia).
      assert (E : forall x, Qle_bool x x = true)
        by (intros x; apply Qle_bool_iff; apply Qle_refl).
      rewrite E. reflexivity. }
    rewrite Es in E. cbn in E. congruence. }
  split; [exact H01|].
  destruct (Crossover.signal sg) as [|s0 rest] eqn:Esig.
  - cbn [List.length] in Hlen.
    split; [intros Hne; destruct close; [congruence | discriminate]|].
    split; [rewrite Hpos; constructor|].
    intros m Hm. lia.
  - assert (Hs0 : s0 = 0) by (apply (H0 s0 rest); reflexivity).
    subst s0. inversion H01 as [|? ? _ Hrest]; subst.
    rewrite Hpos. cbn [Crossover.diff List.hd_error List.tl].
    split; [reflexivity|].
    split; [apply diff_from_steps; [left; reflexivity | exact Hrest]|].
    intros m Hm. cbn [firstn Crossover.nansum fold_right].
    change (fold_right
              (fun x0 acc => match x0 with Fin q => q + acc | _ => acc end)
              0 (firstn m (Crossover.diff_from 0 rest)))
      with (Crossover.nansum (firstn m (Crossover.diff_from 0 rest))).
    cbn [List.length] in Hlen.
    rewrite nansum_diff_from by lia. ring.
Qed.

Lemma positions_add_up_to_the_signal_witness :
  exists sg,
    Crossover.generate_signals
      {| Crossover.short_window := 1; Crossover.long_window := 2 |}
      [10; 12; 11; 9; 13] = Return sg /\
    Crossover.signal sg = [0; 1; 0; 0; 1] /\
    Crossover.nansum (firstn 5 (Crossover.positions sg)) == 1.
Proof.
  eexists. split; [reflexivity|]. split; [reflexivity|].
  assert (Hm : (4 < List.length [10; 12; 11; 9; 13])%nat) by (cbn; lia).
  exact (proj2 (proj2 (proj2 (@positions_add_up_to_the_signal
           {| Crossover.short_window := 1; Crossover.long_window := 2 |}
           [10; 12; 11; 9; 13] _ eq_refl))) 4%nat Hm).
Defined.

(** * Connecting with back-off *)

Lemma backoff_total (n : nat) :
  Connection.total (Connection.backoff n) = (2 ^ Z.of_nat n - 1)%Z.
Proof.
  unfold Connection.backoff. induction n as [|n IH]; [reflexivity|].
  rewrite seq_S, map_app. cbn [map Nat.add].
  unfold Connection.total in *. rewrite fold_right_app.
  cbn [fold_right].
  assert (G : forall (l : list Z) (a : Z),
             fold_right Z.add a l = (fold_right Z.add 0 l + a)%Z).
  { induction l as [|x l IHl]; intros a; cbn [fold_right]; [lia|].
    rewrite IHl. lia. }
  rewrite G, IH. rewrite Nat2Z.inj_succ, Z.pow_succ_r by lia. lia.
Qed.

Lemma connect_loop_refused (catches : exn -> bool)
  (link : nat -> option exn) (n remaining attempt : nat)
  (s : Connection.state) :
  (forall j, (j < n)%nat ->
             exists e, link (attempt + j)%nat = Some e /\ catches e = true) ->
  Connection.connect_loop catches link (n + remaining) attempt s
  = Connection.connect_loop catches link remaining (attempt + n)
      {| Connection.connected := Connection.connected s;
         Connection.slept :=
           Connection.slept s
           ++ map (fun k => (2 ^ Z.of_nat k)%Z) (seq attempt n) |}.
Proof.
  revert attempt s. induction n as [|n IH]; intros attempt s H.
  - cbn [Nat.add seq map]. rewrite app_nil_r, Nat.add_0_r.
    destruct s; reflexivity.
  - cbn [Nat.add Connection.connect_loop].
    destruct (H 0%nat ltac:(lia)) as (e & He & Hc).
    rewrite Nat.add_0_r in He. rewrite He, Hc.
    rewrite IH.
    + cbn [Connection.sleep Connection.connected Connection.slept seq map].
      rewrite <- app_assoc. cbn [app].
      replace (S attempt + n)%nat with (attempt + S n)%nat by lia.
      reflexivity.
    + intros j Hj. destruct (H (S j) ltac:(lia)) as (e' & He' & Hc').
      exists e'. split; [|exact Hc'].
      replace (S attempt + j)%nat with (attempt + S j)%nat by lia. exact He'.
Qed.

(** X21.  [IBKRConnection.connect] calls the session at most [retries]
    times and stops at the first call that does not raise ConnectionError.
    After [n] refused calls it has slept 1, 2, 4, ... seconds, [2^n - 1] in
    all.  If that used up all the tries it returns False with the flag
    untouched (with [retries <= 0] at once, without any call); if the next
    call succeeds it sets [connected] and returns True; if the next call
    raises another exception, that exception escapes. *)
Theorem connect_backs_off_and_stops_at_first_answer :
  forall (link : nat -> option exn) (retries : Z) (s : Connection.state)
         (n : nat),
    (n <= Z.to_nat retries)%nat ->
    (forall j, (j < n)%nat -> link j = Some ConnectionError) ->
    let waited := Connection.slept s ++ Connection.backoff n in
    Connection.total (Connection.backoff n) = (2 ^ Z.of_nat n - 1)%Z /\
    (n = Z.to_nat retries ->
     Connection.IBKRConnection_connect link retries s
     = (Return false,
        {| Connection.connected := Connection.connected s;
           Connection.slept := waited |})) /\
    ((n < Z.to_nat retries)%nat -> link n = None ->
     Connection.IBKRConnection_connect link retries s
     = (Return true,
        {| Connection.connected := true; Connection.slept := waited |})) /\
    ((n < Z.to_nat retries)%nat ->
     forall e, link n = Some e -> e <> ConnectionError ->
     Connection.IBKRConnection_connect link retries s
     = (Raise e,
        {| Connection.connected := Connection.connected s;
           Connection.slept := waited |})).
Proof.
  intros link retries s n Hn Href waited.
  split; [apply backoff_total|].
  assert (Hloop : forall remaining,
            Z.to_nat retries = (n + remaining)%nat ->
            Connection.IBKRConnection_connect link retries s
            = Connection.connect_loop
                (fun e => match e with ConnectionError => true | _ => false end)
                link remaining n
                {| Connection.connected := Connection.connected s;
                   Connection.slept := waited |}).
  { intros remaining E. unfold Connection.IBKRConnection_connect.
    rewrite E, connect_loop_refused.
    - reflexivity.
    - intros j Hj. exists ConnectionError. split; [|reflexivity].
      apply Href. exact Hj. }
  split; [|split].
  - intros E. rewrite (Hloop 0%nat) by lia. reflexivity.
  - intros Hlt Hok.
    rewrite (Hloop (S (Z.to_nat retries - n - 1))) by lia.
    cbn [Connection.connect_loop]. rewrite Hok. reflexivity.
  - intros Hlt e He Hne.
    rewrite (Hloop (S (Z.to_nat retries - n - 1))) by lia.
    cbn [Connection.connect_loop]. rewrite He.
    destruct e; try reflexivity. congruence.
Qed.

Lemma connect_backs_off_and_stops_at_first_answer_witness :
  Connection.IBKRConnection_connect
    (fun k => if (k <? 2)%nat then Some ConnectionError else None) 3
    {| Connection.connected := false; Connection.slept := [] |}
  = (Return true,
     {| Connection.connected := true; Connection.slept := [1; 2]%Z |}).
Proof.
  assert (Hn : (2 <= Z.to_nat 3)%nat) by (cbn; lia).
  assert (Hlt : (2 < Z.to_nat 3)%nat) by (cbn; lia).
  assert (Href : forall j, (j < 2)%nat ->
            (fun k => if (k <? 2)%nat then Some ConnectionError else None) j
            = Some ConnectionError).
  { intros j Hj. apply Nat.ltb_lt in Hj. cbv beta. rewrite Hj. reflexivity. }
  destruct (@connect_backs_off_and_stops_at_first_answer
              (fun k => if (k <? 2)%nat then Some ConnectionError else None)
              3 {| Connection.connected := false; Connection.slept := [] |}
              2 Hn Href) as (_ & _ & H & _).
  exact (H Hlt eq_refl).
Defined.

(** X22.  [IBKRQuant.connect] retries after any exception, so it never
    raises: it returns True (with [connected] set) exactly when one of the
    first [retries] calls succeeds, having slept [2^n - 1] seconds for the
    [n] failures before it, and returns False after [2^retries - 1]
    seconds otherwise. *)
Theorem quant_connect_never_raises :
  forall (link : nat -> option exn) (retries : Z) (s : Connection.state)
         (n : nat),
    (n <= Z.to_nat retries)%nat ->
    (forall j, (j < n)%nat -> link j <> None) ->
    let waited := Connection.slept s ++ Connection.backoff n in
    (n = Z.to_nat retries ->
     Connection.IBKRQuant_connect link retries s
     = (Return false,
        {| Connection.connected := Connection.connected s;
           Connection.slept := waited |})) /\
    ((n < Z.to_nat retries)%nat -> link n = None ->
     Connection.IBKRQuant_connect link retries s
     = (Return true,
        {| Connection.connected := true; Connection.slept := waited |})) /\
    (forall e, fst (Connection.IBKRQuant_connect link retries s) <> Raise e).
Proof.
  intros link retries s n Hn Href waited.
  assert (Hloop : forall remaining,
            Z.to_nat retries = (n + remaining)%nat ->
            Connection.IBKRQuant_connect link retries s
            = Connection.connect_loop (fun _ => true) link remaining n
                {| Connection.connected := Connection.connected s;
                   Connection.slept := waited |}).
  { intros remaining E. unfold Connection.IBKRQuant_connect.
    rewrite E, connect_loop_refused.
    - reflexivity.
    - intros j Hj. specialize (Href j Hj).
      destruct (link (0 + j)%nat) as [e|] eqn:El.
      + exists e. split; reflexivity.
      + cbn [Nat.add] in El. congruence. }
  split; [|split].
  - intros E. rewrite (Hloop 0%nat) by lia. reflexivity.
  - intros Hlt Hok.
    rewrite (Hloop (S (Z.to_nat retries - n - 1))) by lia.
    cbn [Connection.connect_loop]. rewrite Hok. reflexivity.
  - intros e. unfold Connection.IBKRQuant_connect.
    generalize (Z.to_nat retries) 0%nat s. clear.
    intros r. induction r as [|r IH]; intros a s; cbn [Connection.connect_loop].
    + discriminate.
    + destruct (link a); [apply IH | discriminate].
Qed.

Lemma quant_connect_never_raises_witness :
  Connection.IBKRQuant_connect (fun _ => Some ValueError) 3
    {| Connection.connected := false; Connection.slept := [] |}
  = (Return false,
     {| Connection.connected := false; Connection.slept := [1; 2; 4]%Z |}).
Proof.
  assert (Hn : (3 <= Z.to_nat 3)%nat) by (cbn; lia).
  assert (Href : forall j, (j < 3)%nat ->
            (fun _ : nat => Some ValueError) j <> None)
    by (intros j _; discriminate).
  destruct (@quant_connect_never_raises
              (fun _ => Some ValueError) 3
              {| Connection.connected := false; Connection.slept := [] |}
              3 Hn Href) as (H & _).
  exact (H eq_refl).
Defined.

(** * The dict and the record agree *)

Lemma field_merged {A} (rd : Raw.value -> option A) (k : string)
  (u : Raw.dict) (dflt : A) :
  NoDup (Raw.keys u) ->
  Reading.readable rd k u ->
  Reading.field rd k Raw.defaults = Some dflt ->
  Reading.field rd k (Raw._validate_config (Some u))
  = Some (or_default dflt (Reading.field rd k u)).
Proof.
  intros Hnd Hr Hd. unfold Reading.readable, Reading.field in *.
  unfold Raw._validate_config. rewrite get_update by exact Hnd.
  destruct (Raw.get k u) as [v|] eqn:E.
  - destruct Hr as [Hr|Hr]; [discriminate|].
    destruct (rd v) as [a|]; [reflexivity | congruence].
  - exact Hd.
Qed.

(** X23.  Read at the types of [Config], the dict that [_validate_config]
    builds is the record used throughout: for a caller's dict whose known
    keys have values of the right type, each of the fifteen entries is the
    caller's value where given and the default otherwise; with no dict it
    is the record of defaults. *)
Theorem validate_config_dict_and_record_agree :
  forall (u : Raw.dict),
    NoDup (Raw.keys u) ->
    Reading.well_typed u ->
    Reading.config_of (Raw._validate_config (Some u))
    = Some (_validate_config (Some (Reading.user_of u))) /\
    Reading.config_of (Raw._validate_config None)
    = Some (_validate_config None).
Proof.
  intros u Hnd (H1 & H2 & H3 & H4 & H5 & H6 & H7 & H8 & H9 & H10 & H11
                & H12 & H13 & H14 & H15).
  split; [|reflexivity].
  unfold Reading.config_of.
  rewrite (field_merged (dflt := adx_period defaults) Hnd H1 eq_refl).
  rewrite (field_merged (dflt := adx_threshold defaults) Hnd H2 eq_refl).
  rewrite (field_merged (dflt := bollinger_ma_period defaults) Hnd H3 eq_refl).
  rewrite (field_merged (dflt := bollinger_std_dev defaults) Hnd H4 eq_refl).
  rewrite (field_merged (dflt := rsi_period defaults) Hnd H5 eq_refl).
  rewrite (field_merged (dflt := rsi_oversold defaults) Hnd H6 eq_refl).
  rewrite (field_merged (dflt := rsi_overbought defaults) Hnd H7 eq_refl).
  rewrite (field_merged (dflt := atr_period defaults) Hnd H8 eq_refl).
  rewrite (field_merged (dflt := stop_loss_atr_multiplier defaults)
                        Hnd H9 eq_refl).
  rewrite (field_merged (dflt := profit_target_pct defaults) Hnd H10 eq_refl).
  rewrite (field_merged (dflt := risk_per_trade_pct defaults) Hnd H11 eq_refl).
  rewrite (field_merged (dflt := max_trades_per_day defaults) Hnd H12 eq_refl).
  rewrite (field_merged (dflt := daily_loss_limit_pct defaults)
                        Hnd H13 eq_refl).
  rewrite (field_merged (dflt := trade_start_time defaults) Hnd H14 eq_refl).
  rewrite (field_merged (dflt := trade_end_time defaults) Hnd H15 eq_refl).
  reflexivity.
Qed.

Lemma validate_config_dict_and_record_agree_witness :
  Reading.config_of
    (Raw._validate_config
       (Some [("atr_period", Raw.VInt 7);
              ("stop_loss_atr_multiplier", Raw.VFloat (Fin 2));
              ("colour", Raw.VStr "red")]%string))
  = Some (_validate_config
            (Some (Scenario.overrides (Some 7%nat) (Some 2)))).
Proof.
  assert (Hnd : NoDup (Raw.keys
                         [("atr_period", Raw.VInt 7);
                          ("stop_loss_atr_multiplier", Raw.VFloat (Fin 2));
                          ("colour", Raw.VStr "red")]%string)).
  { repeat constructor; cbn; intuition discriminate. }
  assert (Hwt : Reading.well_typed
                  [("atr_period", Raw.VInt 7);
                   ("stop_loss_atr_multiplier", Raw.VFloat (Fin 2));
                   ("colour", Raw.VStr "red")]%string).
  { unfold Reading.well_typed, Reading.readable.
    repeat split;
      first [left; reflexivity
            | right; intro H; vm_compute in H; discriminate H]. }
  exact (proj1 (@validate_config_dict_and_record_agree _ Hnd Hwt)).
Defined.

